(** * ClatCoordinator JNI bridge: a shallow embedding and its properties

    The development follows
    [service/jni/com_android_server_connectivity_ClatCoordinator.cpp].
    The four native methods registered there ([selectIpv4Address],
    [generateIpv6Address], [createTunInterface], [detectMtu]) are written as
    computations over an explicit process state (descriptor table, [errno],
    pending Java exception, and a trace of the calls that left the bridge).

    Conventions.
    - A [jstring] is [option string]: [None] is the Java [null] reference.
      A string holds the bytes handed out by [GetStringUTFChars] (modified
      UTF-8, which has no NUL byte), so it is also the C string seen by libc.
    - [in_addr] and [in6_addr] are the 32-bit and 128-bit values of the
      address read most significant byte first (a.b.c.d is
      a*2^24 + b*2^16 + c*2^8 + d).
    - [jint] and [int] results are [Z].
    - Everything outside the file (kernel, libc [strerror], the interface
      address table, entropy, the network path) is gathered in an
      [environment] that the computations read. *)

From Stdlib Require Import ZArith Lia Ascii String.
From stdpp Require Import base gmap strings list pretty.

Local Open Scope string_scope.
Local Open Scope list_scope.
Local Open Scope Z_scope.

(** ** Constants of the Linux and libc headers the file includes *)

Module Linux.
Definition O_RDWR : Z := 2.
Definition O_NONBLOCK : Z := 2048.      (* 04000 *)
Definition O_CLOEXEC : Z := 524288.     (* 02000000 *)
(** <net/if.h> *)
Definition IFNAMSIZ : nat := 16.
(** <linux/if_tun.h> *)
Definition IFF_TUN : Z := 1.
Definition TUNSETIFF : Z := 1074025674. (* _IOW('T', 202, int) = 0x400454ca *)
(** <errno.h> *)
Definition EBADF : Z := 9.
Definition ENOTTY : Z := 25.
(** <netinet/in.h>, <arpa/inet.h> *)
Definition INADDR_NONE : Z := 4294967295. (* 0xffffffff *)
Definition INET_ADDRSTRLEN : nat := 16.
Definition INET6_ADDRSTRLEN : nat := 46.
End Linux.
Export Linux.

(** ** Process state *)

(** [struct ifreq], restricted to the two members the file touches. *)
Record ifreq := mk_ifreq { ifr_name : string; ifr_flags : Z }.

(** An open file description: what it was opened on and with which flags,
    and, for a tun descriptor, the request of the TUNSETIFF that succeeded on
    it. The interface the kernel binds for that request is not part of the
    description: its name is the requested one for a plain name, and the
    kernel's own choice for an empty name or a name with "%d". *)
Record file := mk_file {
  f_path : string;
  f_flags : Z;
  f_tun_request : option ifreq
}.

Record jthrowable := mk_jthrowable { ex_class : string; ex_msg : string }.

(** Calls that leave the bridge, in program order. *)
Inductive event :=
| EvOpen (path : string) (flags ret : Z)
| EvIoctl (fd request : Z) (arg : ifreq) (ret : Z)
| EvClose (fd ret : Z)
| EvThrow (cls msg : string)
| EvSelectIpv4 (ip prefixlen : Z)
| EvGenerateIpv6 (iface : string) (v4 nat64Prefix : Z)
| EvDetectMtu (plat_subnet plat_suffix mark : Z).

Record state := mk_state {
  fdtable : gmap Z file;
  errno : Z;
  pending : option jthrowable;
  trace : list event
}.

Definition initial_state : state :=
  {| fdtable := ∅; errno := 0; pending := None; trace := [] |}.

(** ** The state monad the bridge runs in *)

Definition M (A : Type) : Type := state -> A * state.

Definition ret {A} (a : A) : M A := fun st => (a, st).
Definition bind {A B} (k : A -> M B) (m : M A) : M B :=
  fun st => let '(a, st') := m st in k a st'.

#[global] Instance M_ret : MRet M := @ret.
#[global] Instance M_bind : MBind M := @bind.

Definition get_errno : M Z := fun st => (errno st, st).

Definition set_errno (e : Z) (st : state) : state :=
  {| fdtable := fdtable st; errno := e; pending := pending st; trace := trace st |}.
Definition set_fdtable (t : gmap Z file) (st : state) : state :=
  {| fdtable := t; errno := errno st; pending := pending st; trace := trace st |}.
Definition set_pending (p : option jthrowable) (st : state) : state :=
  {| fdtable := fdtable st; errno := errno st; pending := p; trace := trace st |}.
Definition log (e : event) (st : state) : state :=
  {| fdtable := fdtable st; errno := errno st; pending := pending st;
     trace := trace st ++ [e] |}.

Definition emit (e : event) : M unit := fun st => (tt, log e st).

(** ** Addresses on interfaces, probes *)

Inductive ipaddr :=
| V4 (a : Z)
| V6 (a : Z).

Record ifaddr := mk_ifaddr { ifa_name : string; ifa_addr : ipaddr }.

Inductive probe_outcome :=
| ProbeOk (size : Z)
| ProbeErr (err : positive).

(** The local link that carries IPv6: the kernel enables IPv6 only on a
    link whose MTU is at least 1280 (IPV6_MIN_MTU, RFC 8200 section 5). *)
Record ipv6_link := mk_ipv6_link {
  ipv6_mtu : Z;
  ipv6_mtu_min : 1280 <= ipv6_mtu
}.

(** ** What the bridge reads from its surroundings *)

Record environment := mk_environment {
  (** kernel: [Some e] makes the call fail with [errno = e] *)
  open_fails : option positive;
  tunsetiff_fails : option positive;
  close_fails : option positive;
  (** libc *)
  strerror : Z -> string;
  (** addresses currently configured on local interfaces *)
  ifaddrs : list ifaddr;
  (** entropy drawn for an interface at a given attempt (32 bits are used) *)
  entropy : string -> nat -> Z;
  (** extra identifiers the generator may try after the first one *)
  retry_identifiers : nat;
  (** outcome of the probe sent to a destination under a mark at an attempt *)
  probe : Z -> Z -> nat -> probe_outcome;
  (** extra probes the prober may send after the first one *)
  retry_probes : nat;
  (** the local link the probes leave through *)
  local_link : ipv6_link
}.

Definition link_mtu (env : environment) : Z := ipv6_mtu (local_link env).

(** ** Kernel calls *)

(** POSIX: [open] returns the lowest descriptor not open in the process. *)
Fixpoint lowest_from (t : gmap Z file) (fuel : nat) (n : Z) : Z :=
  match fuel with
  | O => n
  | S k => match t !! n with
           | None => n
           | Some _ => lowest_from t k (n + 1)
           end
  end.

Definition lowest_free_fd (t : gmap Z file) : Z := lowest_from t (size t) 0.

Section Kernel.
Variable env : environment.

Definition sys_open (path : string) (flags : Z) : M Z := fun st =>
  match open_fails env with
  | Some e => (-1, log (EvOpen path flags (-1)) (set_errno (Z.pos e) st))
  | None =>
      let fd := lowest_free_fd (fdtable st) in
      let f := {| f_path := path; f_flags := flags; f_tun_request := None |} in
      (fd, log (EvOpen path flags fd) (set_fdtable (<[fd := f]> (fdtable st)) st))
  end.

(** [ioctl] for the one request the file issues. Whether the kernel accepts
    a TUNSETIFF is the environment's answer (it refuses, for one, a name
    that is already held: EBUSY). On success the descriptor keeps the
    request; which interface name the kernel binds for it is left out. *)
Definition sys_ioctl (fd request : Z) (arg : ifreq) : M Z := fun st =>
  let fail e := (-1, log (EvIoctl fd request arg (-1)) (set_errno e st)) in
  match fdtable st !! fd with
  | None => fail EBADF
  | Some f =>
      if negb (request =? TUNSETIFF) then fail ENOTTY
      else match tunsetiff_fails env with
           | Some e => fail (Z.pos e)
           | None =>
               let f' := {| f_path := f_path f; f_flags := f_flags f;
                            f_tun_request := Some arg |} in
               (0, log (EvIoctl fd request arg 0)
                       (set_fdtable (<[fd := f']> (fdtable st)) st))
           end
  end.

(** Linux releases the descriptor even when [close] reports an error. *)
Definition sys_close (fd : Z) : M Z := fun st =>
  match fdtable st !! fd with
  | None => (-1, log (EvClose fd (-1)) (set_errno EBADF st))
  | Some _ =>
      let st' := set_fdtable (delete fd (fdtable st)) st in
      match close_fails env with
      | Some e => (-1, log (EvClose fd (-1)) (set_errno (Z.pos e) st'))
      | None => (0, log (EvClose fd 0) st')
      end
  end.
End Kernel.

(** ** JNI helpers *)

Definition jstring := option string.

Definition IOException : string := "java/io/IOException".
Definition NullPointerException : string := "java/lang/NullPointerException".

(** [jniThrowExceptionFmt], message already formatted. A pending exception
    is discarded in favour of the new one. *)
Definition jniThrowExceptionFmt (cls msg : string) : M unit := fun st =>
  (tt, log (EvThrow cls msg) (set_pending (Some (mk_jthrowable cls msg)) st)).

(** [ScopedUtfChars]: a null reference raises NullPointerException and
    leaves [c_str()] null. *)
Definition ScopedUtfChars (s : jstring) : M (option string) :=
  match s with
  | None => jniThrowExceptionFmt NullPointerException "" ;; ret None
  | Some b => ret (Some b)
  end.

(** ** libc string helpers *)

Fixpoint string_take (n : nat) (s : string) : string :=
  match n, s with
  | S n', String c s' => String c (string_take n' s')
  | _, _ => ""
  end.

(** [strlcpy(dst, src, size)]: the bytes left in [dst]. *)
Definition strlcpy (src : string) (size : nat) : string :=
  string_take (size - 1) src.

(** ** libc: presentation and binary forms of addresses

    [inet_pton] and [inet_ntop] as bionic ships them (the ISC/BSD
    [inet_pton4], [inet_pton6], [inet_ntop4], [inet_ntop6]). [inet_pton]
    gives [Some] the address when the C function returns 1, [inet_ntop] gives
    [None] when the C function returns NULL. *)

Inductive address_family := AF_INET | AF_INET6.

Definition octets_to_addr (o : list Z) : Z :=
  fold_left (fun acc b => acc * 256 + b) o 0.

Definition words_to_addr (w : list Z) : Z :=
  fold_left (fun acc b => acc * 65536 + b) w 0.

Definition addr_octet (a : Z) (i : Z) : Z := Z.land (Z.shiftr a (8 * (3 - i))) 255.
Definition addr_word (a : Z) (i : Z) : Z := Z.land (Z.shiftr a (16 * (7 - i))) 65535.

Definition digit_of (ch : ascii) : option Z :=
  let n := Z.of_N (N_of_ascii ch) in
  if (48 <=? n) && (n <=? 57) then Some (n - 48) else None.

Definition xdigit_of (ch : ascii) : option Z :=
  let n := Z.of_N (N_of_ascii ch) in
  if (48 <=? n) && (n <=? 57) then Some (n - 48)
  else if (97 <=? n) && (n <=? 102) then Some (n - 87)
  else if (65 <=? n) && (n <=? 70) then Some (n - 55)
  else None.

Definition is_char (ch : ascii) (c : string) : bool := String.eqb (String ch "") c.

(** [inet_pton4]: [done] holds the finished octets, last one first; [cur]
    is [*tp]. *)
Fixpoint inet_pton4_loop (src : string) (done : list Z) (cur : Z)
    (saw_digit : bool) (octets : nat) : option (list Z) :=
  match src with
  | "" => if (octets <? 4)%nat then None else Some (rev (cur :: done))
  | String ch src' =>
      match digit_of ch with
      | Some d =>
          let new := cur * 10 + d in
          if saw_digit && (cur =? 0) then None
          else if 255 <? new then None
          else if saw_digit then inet_pton4_loop src' done new true octets
          else if (4 <? S octets)%nat then None
          else inet_pton4_loop src' done new true (S octets)
      | None =>
          if is_char ch "." && saw_digit then
            if (octets =? 4)%nat then None
            else inet_pton4_loop src' (cur :: done) 0 false octets
          else None
      end
  end.

Definition inet_pton4 (src : string) : option Z :=
  octets_to_addr <$> inet_pton4_loop src [] 0 false 0.

(** [inet_ntop4]: "%u.%u.%u.%u", refused when it does not fit with its NUL. *)
Definition inet_ntop4_text (a : Z) : string :=
  pretty (addr_octet a 0) +:+ "." +:+ pretty (addr_octet a 1) +:+ "." +:+
  pretty (addr_octet a 2) +:+ "." +:+ pretty (addr_octet a 3).

Definition fit (text : string) (size : nat) : option string :=
  if (size <=? String.length text)%nat then None else Some text.

Definition inet_ntop4 (a : Z) (size : nat) : option string :=
  fit (inet_ntop4_text a) size.

(** [inet_pton6]: [words] holds the 16-bit groups stored so far ([tp] is
    two bytes per group past [tmp]), [colonp] the group index of a "::",
    [curtok] the text from the start of the current group. *)
Definition pton6_finish (words : list Z) (colonp : option nat) : option (list Z) :=
  match colonp with
  | Some k =>
      if (8 <=? length words)%nat then None
      else Some (take k words ++ replicate (8 - length words) 0 ++ drop k words)
  | None => if (length words =? 8)%nat then Some words else None
  end.

Fixpoint inet_pton6_loop (src curtok : string) (words : list Z)
    (colonp : option nat) (seen_xdigits : nat) (val : Z) : option (list Z) :=
  match src with
  | "" =>
      if (0 <? seen_xdigits)%nat then
        if (8 <=? length words)%nat then None
        else pton6_finish (words ++ [val]) colonp
      else pton6_finish words colonp
  | String ch src' =>
      match xdigit_of ch with
      | Some d =>
          if (4 <? S seen_xdigits)%nat then None
          else inet_pton6_loop src' curtok words colonp (S seen_xdigits)
                 (Z.lor (Z.shiftl val 4) d)
      | None =>
          if is_char ch ":" then
            if (seen_xdigits =? 0)%nat then
              match colonp with
              | Some _ => None
              | None => inet_pton6_loop src' src' words (Some (length words)) 0 val
              end
            else if String.eqb src' "" then None
            else if (8 <=? length words)%nat then None
            else inet_pton6_loop src' src' (words ++ [val]) colonp 0 0
          else if is_char ch "." && (length words + 2 <=? 8)%nat then
            match inet_pton4 curtok with
            | Some a =>
                pton6_finish (words ++ [Z.shiftr a 16; Z.land a 65535]) colonp
            | None => None
            end
          else None
      end
  end.

Definition inet_pton6 (src : string) : option Z :=
  let start :=
    match src with
    | String c rest =>
        if is_char c ":" then
          match rest with
          | String c' _ => if is_char c' ":" then Some rest else None
          | "" => None
          end
        else Some src
    | "" => Some src
    end in
  match start with
  | Some src' => words_to_addr <$> inet_pton6_loop src' src' [] None 0 0
  | None => None
  end.

(** "%x" *)
Definition hex_char (d : Z) : ascii :=
  ascii_of_N (Z.to_N (if d <? 10 then 48 + d else 87 + d)).

Fixpoint hex_go (fuel : nat) (x : Z) (acc : string) : string :=
  match fuel with
  | O => acc
  | S k =>
      let acc' := String (hex_char (x mod 16)) acc in
      if x / 16 =? 0 then acc' else hex_go k (x / 16) acc'
  end.

Definition hex (x : Z) : string := hex_go (S (Z.to_nat (Z.log2 x))) x "".

(** [inet_ntop6]. A run is (base, len). *)
Definition longer_run (cur best : option (nat * nat)) : option (nat * nat) :=
  match cur, best with
  | None, _ => best
  | Some _, None => cur
  | Some (_, cl), Some (_, bl) => if (bl <? cl)%nat then cur else best
  end.

Fixpoint zero_run (ws : list Z) (i : nat) (cur best : option (nat * nat))
    : option (nat * nat) :=
  match ws with
  | [] => longer_run cur best
  | w :: ws' =>
      if w =? 0 then
        zero_run ws' (S i)
          (match cur with None => Some (i, 1%nat) | Some (b, l) => Some (b, S l) end)
          best
      else zero_run ws' (S i) None (longer_run cur best)
  end.

Definition best_run (ws : list Z) : option (nat * nat) :=
  match zero_run ws 0 None None with
  | Some (b, l) => if (l <? 2)%nat then None else Some (b, l)
  | None => None
  end.

Definition in_run (best : option (nat * nat)) (i : nat) : bool :=
  match best with
  | Some (b, l) => (b <=? i)%nat && (i <? b + l)%nat
  | None => false
  end.

Definition run_starts (best : option (nat * nat)) (i : nat) : bool :=
  match best with Some (b, _) => (i =? b)%nat | None => false end.

(** "Is this address an encapsulated IPv4?" *)
Definition encapsulated_v4 (best : option (nat * nat)) (w5 w7 : Z) (i : nat) : bool :=
  match best with
  | Some (b, l) =>
      (i =? 6)%nat && (b =? 0)%nat &&
      ((l =? 6)%nat || ((l =? 7)%nat && negb (w7 =? 1)) || ((l =? 5)%nat && (w5 =? 65535)))
  | None => false
  end.

Fixpoint ntop6_groups (best : option (nat * nat)) (w5 w7 low32 : Z)
    (ws : list Z) (i : nat) : string :=
  match ws with
  | [] => ""
  | w :: ws' =>
      if in_run best i then
        (if run_starts best i then ":" else "") +:+
        ntop6_groups best w5 w7 low32 ws' (S i)
      else
        (if (i =? 0)%nat then "" else ":") +:+
        (if encapsulated_v4 best w5 w7 i then inet_ntop4_text low32
         else hex w +:+ ntop6_groups best w5 w7 low32 ws' (S i))
  end.

Definition inet_ntop6_text (a : Z) : string :=
  let ws := (fun i => addr_word a (Z.of_nat i)) <$> seq 0 8 in
  let best := best_run ws in
  ntop6_groups best (addr_word a 5) (addr_word a 7) (Z.land a 4294967295) ws 0 +:+
  (match best with
   | Some (b, l) => if (b + l =? 8)%nat then ":" else ""
   | None => ""
   end).

Definition inet_ntop6 (a : Z) (size : nat) : option string :=
  fit (inet_ntop6_text a) size.

Definition inet_pton (af : address_family) (src : string) : option Z :=
  match af with AF_INET => inet_pton4 src | AF_INET6 => inet_pton6 src end.

Definition inet_ntop (af : address_family) (a : Z) (size : nat) : option string :=
  match af with AF_INET => inet_ntop4 a size | AF_INET6 => inet_ntop6 a size end.

(** ** createTunInterface (lines 99-125)

    [tuniface] is a non-null reference. *)

Section CreateTun.
Variable env : environment.

Definition com_android_server_connectivity_ClatCoordinator_createTunInterface
    (tuniface : string) : M Z :=
  let v4interface := tuniface in
  fd ← sys_open env "/dev/net/tun" (Z.lor (Z.lor O_RDWR O_NONBLOCK) O_CLOEXEC);
  if fd =? -1 then
    e ← get_errno;
    jniThrowExceptionFmt IOException
      ("open tun device failed (" +:+ strerror env e +:+ ")");;
    ret (-1)
  else
    let ifr := {| ifr_name := strlcpy v4interface IFNAMSIZ; ifr_flags := IFF_TUN |} in
    r ← sys_ioctl env fd TUNSETIFF ifr;
    if negb (r =? 0) then
      sys_close env fd;;
      e ← get_errno;
      jniThrowExceptionFmt IOException
        ("ioctl(TUNSETIFF) failed (" +:+ strerror env e +:+ ")");;
      ret (-1)
    else
      ret fd.
End CreateTun.

(** ** The native helper library (libclat)

    The file includes "libclat/clatutils.h" and calls three functions of
    [net::clat] whose bodies are not among the sources. *)

Module clat.
Section Helpers.
Variable env : environment.

(** *** Address pool selector *)

(** Modelled from the spec: the mask of "the subnet defined by
    baseAddress/prefixLength" (spec 4.1), part of the missing
    [net::clat::selectIpv4Address]. *)
Definition netmask (prefixlen : Z) : Z :=
  Z.shiftl (Z.ones prefixlen) (32 - prefixlen).

(** Modelled from the spec: the network address of that subnet, which spec
    4.1 excludes from the candidates. *)
Definition network_address (ip prefixlen : Z) : Z :=
  Z.land ip (netmask prefixlen).

(** Modelled from the spec: the broadcast address of that subnet, which spec
    4.1 excludes from the candidates. *)
Definition broadcast_address (ip prefixlen : Z) : Z :=
  Z.lor (network_address ip prefixlen) (Z.ones (32 - prefixlen)).

(** Modelled from the spec: "candidate host addresses within the subnet
    defined by baseAddress/prefixLength (excluding network/broadcast
    addresses)" (spec 4.1), in increasing order. *)
Definition host_candidates (ip prefixlen : Z) : list Z :=
  let network := network_address ip prefixlen in
  seqZ (network + 1) (broadcast_address ip prefixlen - network - 1).

(** Modelled from the spec: "currently assigned to any local network
    interface, determined by querying the live interface-address table at
    call time" (spec 4.1). *)
Definition assigned_v4 (a : Z) : bool :=
  existsb (fun ifa => match ifa_addr ifa with
                      | V4 b => a =? b
                      | V6 _ => false
                      end) (ifaddrs env).

(** Modelled from the spec: [net::clat::selectIpv4Address], missing from
    the sources. Spec 4.1: "enumerate candidate host addresses within the
    subnet defined by baseAddress/prefixLength (excluding network/broadcast
    addresses), and return the first candidate not currently assigned to any
    local network interface, determined by querying the live
    interface-address table at call time"; the result is "a single free
    address, or a NotFound condition if the subnet is exhausted". NotFound
    is the [INADDR_NONE] that the bridge tests for. *)
Definition selectIpv4Address (ip prefixlen : Z) : Z :=
  match List.find (fun a => negb (assigned_v4 a)) (host_candidates ip prefixlen) with
  | Some a => a
  | None => INADDR_NONE
  end.

(** *** Checksum-neutral identifier generator *)

(** Modelled from the spec: the first of the two 16-bit words ("byte
    pairs", spec 8) of a 32-bit value, part of the missing
    [net::clat::generateIpv6Address]. *)
Definition hi16 (x : Z) : Z := Z.land (Z.shiftr x 16) 65535.

(** Modelled from the spec: the second of those two words. *)
Definition lo16 (x : Z) : Z := Z.land x 65535.

(** Modelled from the spec: the sum "folded" (spec 8), that is with the
    carry out of 16 bits added back in. *)
Definition fold16 (sum : Z) : Z := Z.land sum 65535 + Z.shiftr sum 16.

(** Modelled from the spec: the ones-complement sum of the two words of a
    32-bit value, as in the example "0xC000 + 0x0004, folded" (spec 8). *)
Definition ones_sum (x : Z) : Z := fold16 (hi16 x + lo16 x).

(** Modelled from the spec: "the ones-complement 16-bit checksum of the
    4-byte IPv4 address" (spec 4.2 step 1), the complement of that sum. *)
Definition checksum (x : Z) : Z := Z.lxor (ones_sum x) 65535.

(** Modelled from the spec: "adjust the candidate's checksum contribution so
    that checksum(identifier) == checksum(ipv4Address)" (spec 4.2 step 3).
    The high word of the drawn candidate is kept and the low word is chosen
    so that the identifier sums to the same value as the IPv4 address; the
    only value summing to 0 is 0 itself. *)
Definition neutral_identifier (candidate v4 : Z) : Z :=
  let target := ones_sum v4 in
  let hi := hi16 candidate in
  if target =? 0 then 0
  else Z.lor (Z.shiftl hi 16)
             (if hi <=? target then target - hi else target + 65535 - hi).

(** Modelled from the spec: the identifier part of a synthesized address,
    "NAT64Prefix(96 bits) || InterfaceIdentifier(32 bits)" (spec 3). *)
Definition low32 (a : Z) : Z := Z.land a 4294967295.

(** Modelled from the spec: the prefix part of a synthesized address. *)
Definition high96 (a : Z) : Z := Z.shiftr a 32.

(** Modelled from the spec: "concatenate natPrefix[0:96] ||
    identifier[0:32]" (spec 4.2 step 4). *)
Definition embed (nat64Prefix identifier : Z) : Z :=
  Z.lor (Z.shiftl (high96 nat64Prefix) 32) identifier.

(** Modelled from the spec: "already assigned within the interface's address
    scope (query current addresses on interfaceName)" (spec 4.2 step 5). *)
Definition assigned_v6 (iface : string) (a : Z) : bool :=
  existsb (fun ifa => String.eqb (ifa_name ifa) iface &&
                      match ifa_addr ifa with
                      | V6 b => a =? b
                      | V4 _ => false
                      end) (ifaddrs env).

(** Modelled from the spec: the address tried at attempt [k], from "a 32-bit
    candidate identifier seeded from interface-specific entropy" (spec 4.2
    step 2), re-seeded at each attempt (step 5). *)
Definition candidate (iface : string) (v4 nat64Prefix : Z) (k : nat) : Z :=
  embed nat64Prefix (neutral_identifier (entropy env iface k) v4).

(** Modelled from the spec: "if taken, perturb the identifier (e.g.,
    increment/re-seed) and retry within a bounded number of attempts";
    "return the first candidate passing both checksum-neutrality and
    uniqueness checks" (spec 4.2 steps 5 and 6). *)
Fixpoint generate_from (iface : string) (v4 nat64Prefix : Z)
    (budget k : nat) : option Z :=
  match budget with
  | O => None
  | S budget' =>
      let v6 := candidate iface v4 nat64Prefix k in
      if assigned_v6 iface v6
      then generate_from iface v4 nat64Prefix budget' (S k)
      else Some v6
  end.

(** Modelled from the spec: [net::clat::generateIpv6Address], missing from
    the sources. Spec 4.2: compute the ones-complement 16-bit checksum of
    the IPv4 address; choose a 32-bit candidate identifier seeded from
    interface-specific entropy; adjust it so that checksum(identifier) ==
    checksum(ipv4Address); concatenate natPrefix[0:96] || identifier[0:32];
    verify the candidate is not already assigned within the interface's
    address scope and, if taken, re-seed and retry within a bounded number
    of attempts; return the first candidate passing both checks; "if no
    candidate is found within the bounded attempt budget, signal
    NoSourceAddress". [Some v6] stands for status 0 with [v6] stored through
    the out-pointer, [None] for the non-zero status the bridge tests for. *)
Definition generateIpv6Address (iface : string) (v4 nat64Prefix : Z) : option Z :=
  generate_from iface v4 nat64Prefix (S (retry_identifiers env)) 0.

(** *** MTU prober *)

(** Modelled from the spec: "the minimum viable IPv6 MTU (1280)" (spec 3). *)
Definition IPV6_MIN_MTU : Z := 1280.

(** Modelled from the spec: "a positive MTU value, clamped to sane bounds"
    (spec 4.3), the bounds being "bounded above by the local link MTU and
    below by the minimum viable IPv6 MTU" (spec 3). The local link carries
    IPv6, so its MTU is not below that minimum and the interval is never
    empty. *)
Definition clamp_mtu (size : Z) : Z :=
  Z.max IPV6_MIN_MTU (Z.min (link_mtu env) size).

(** Modelled from the spec: "must tolerate transient send/receive errors by
    retrying a bounded number of times before declaring failure" (spec 4.3);
    [last] is the error code of the probe that failed last. *)
Fixpoint probe_from (dest mark : Z) (budget k : nat) (last : positive) : Z :=
  match budget with
  | O => Z.neg last
  | S budget' =>
      match probe env dest mark k with
      | ProbeOk size => clamp_mtu size
      | ProbeErr e => probe_from dest mark budget' (S k) e
      end
  end.

(** Modelled from the spec: [net::clat::detect_mtu], missing from the
    sources. Spec 4.3: "construct a probe destination = platSubnet +
    platSuffix; send datagram(s) toward it under the given routing mark
    [...] to discover the largest size that completes unfragmented. Must
    tolerate transient send/receive errors by retrying a bounded number of
    times before declaring failure"; the result is "a positive MTU value,
    clamped to sane bounds; failure returns a ProbeFailed condition carrying
    the underlying transport error code". The bridge reads a negative result
    as minus that error code. *)
Definition detect_mtu (plat_subnet plat_suffix mark : Z) : Z :=
  let dest := plat_subnet + plat_suffix in
  match probe env dest mark 0 with
  | ProbeOk size => clamp_mtu size
  | ProbeErr e => probe_from dest mark (retry_probes env) 1 e
  end.
End Helpers.
End clat.

(** ** The three address and MTU methods of the bridge *)

Section Bridge.
Variable env : environment.

(** Lines 30-57. [v4addr] is a non-null reference. *)
Definition com_android_server_connectivity_ClatCoordinator_selectIpv4Address
    (v4addr : string) (prefixlen : Z) : M jstring :=
  let address := v4addr in
  match inet_pton AF_INET address with
  | None => mret None
  | Some ip =>
      emit (EvSelectIpv4 ip prefixlen);;
      let v4 := clat.selectIpv4Address env ip prefixlen in
      if v4 =? INADDR_NONE then
        jniThrowExceptionFmt IOException
          ("No free IPv4 address in " +:+ address +:+ "/" +:+ pretty prefixlen);;
        mret None
      else
        match inet_ntop AF_INET v4 INET_ADDRSTRLEN with
        | None => mret None
        | Some addrstr => mret (Some addrstr)
        end
  end.

(** Lines 60-97. [v4Str] and [prefix64Str] are non-null references. *)
Definition com_android_server_connectivity_ClatCoordinator_generateIpv6Address
    (ifaceStr : jstring) (v4Str prefix64Str : string) : M jstring :=
  iface ← ScopedUtfChars ifaceStr;
  let addr4 := v4Str in
  let prefix64 := prefix64Str in
  match iface with
  | None =>
      jniThrowExceptionFmt IOException "Invalid null interface name";;
      mret None
  | Some iface_c_str =>
      match inet_pton AF_INET addr4 with
      | None =>
          jniThrowExceptionFmt IOException ("Invalid clat v4 address " +:+ addr4);;
          mret None
      | Some v4 =>
          match inet_pton AF_INET6 prefix64 with
          | None =>
              jniThrowExceptionFmt IOException ("Invalid prefix " +:+ prefix64);;
              mret None
          | Some nat64Prefix =>
              emit (EvGenerateIpv6 iface_c_str v4 nat64Prefix);;
              match clat.generateIpv6Address env iface_c_str v4 nat64Prefix with
              | None =>
                  jniThrowExceptionFmt IOException
                    ("Unable to find global source address on " +:+ iface_c_str +:+
                     " for " +:+ prefix64);;
                  mret None
              | Some v6 =>
                  match inet_ntop AF_INET6 v6 INET6_ADDRSTRLEN with
                  | None => mret None
                  | Some addrstr => mret (Some addrstr)
                  end
              end
          end
      end
  end.

(** Lines 127-146. [platSubnet] is a non-null reference. *)
Definition com_android_server_connectivity_ClatCoordinator_detectMtu
    (platSubnet : string) (plat_suffix mark : Z) : M Z :=
  let platSubnetStr := platSubnet in
  match inet_pton AF_INET6 platSubnetStr with
  | None =>
      jniThrowExceptionFmt IOException
        ("Invalid plat prefix address " +:+ platSubnetStr);;
      mret (-1)
  | Some plat_subnet =>
      emit (EvDetectMtu plat_subnet plat_suffix mark);;
      let r := clat.detect_mtu env plat_subnet plat_suffix mark in
      if r <? 0 then
        jniThrowExceptionFmt IOException
          ("detect mtu failed: " +:+ strerror env (- r));;
        mret (-1)
      else mret r
  end.
End Bridge.

(** ** The bridge over any helper library

    The same three methods with the calls into [net::clat] left open: what
    is proved of these holds whatever libclat does. *)

Module android.
Section Natives.
Variable env : environment.

(** [net::clat::selectIpv4Address(ip, prefixlen)]: the [in_addr_t] it
    returns. *)
Variable clat_selectIpv4Address : Z → Z → Z.

(** [net::clat::generateIpv6Address(iface, v4, nat64Prefix, &v6)]: the
    status it returns and the address it leaves in [v6]. *)
Variable clat_generateIpv6Address : string → Z → Z → Z * Z.

(** [net::clat::detect_mtu(&plat_subnet, plat_suffix, mark)]: the [int] it
    returns. *)
Variable clat_detect_mtu : Z → Z → Z → Z.

(** Lines 30-57. [v4addr] is a non-null reference. *)
Definition com_android_server_connectivity_ClatCoordinator_selectIpv4Address
    (v4addr : string) (prefixlen : Z) : M jstring :=
  let address := v4addr in
  match inet_pton AF_INET address with
  | None => mret None
  | Some ip =>
      emit (EvSelectIpv4 ip prefixlen);;
      let v4 := clat_selectIpv4Address ip prefixlen in
      if v4 =? INADDR_NONE then
        jniThrowExceptionFmt IOException
          ("No free IPv4 address in " +:+ address +:+ "/" +:+ pretty prefixlen);;
        mret None
      else
        match inet_ntop AF_INET v4 INET_ADDRSTRLEN with
        | None => mret None
        | Some addrstr => mret (Some addrstr)
        end
  end.

(** Lines 60-97. [v4Str] and [prefix64Str] are non-null references. *)
Definition com_android_server_connectivity_ClatCoordinator_generateIpv6Address
    (ifaceStr : jstring) (v4Str prefix64Str : string) : M jstring :=
  iface ← ScopedUtfChars ifaceStr;
  let addr4 := v4Str in
  let prefix64 := prefix64Str in
  match iface with
  | None =>
      jniThrowExceptionFmt IOException "Invalid null interface name";;
      mret None
  | Some iface_c_str =>
      match inet_pton AF_INET addr4 with
      | None =>
          jniThrowExceptionFmt IOException ("Invalid clat v4 address " +:+ addr4);;
          mret None
      | Some v4 =>
          match inet_pton AF_INET6 prefix64 with
          | None =>
              jniThrowExceptionFmt IOException ("Invalid prefix " +:+ prefix64);;
              mret None
          | Some nat64Prefix =>
              emit (EvGenerateIpv6 iface_c_str v4 nat64Prefix);;
              let '(status, v6) := clat_generateIpv6Address iface_c_str v4 nat64Prefix in
              if negb (status =? 0) then
                jniThrowExceptionFmt IOException
                  ("Unable to find global source address on " +:+ iface_c_str +:+
                   " for " +:+ prefix64);;
                mret None
              else
                match inet_ntop AF_INET6 v6 INET6_ADDRSTRLEN with
                | None => mret None
                | Some addrstr => mret (Some addrstr)
                end
          end
      end
  end.

(** Lines 127-146. [platSubnet] is a non-null reference. *)
Definition com_android_server_connectivity_ClatCoordinator_detectMtu
    (platSubnet : string) (plat_suffix mark : Z) : M Z :=
  let platSubnetStr := platSubnet in
  match inet_pton AF_INET6 platSubnetStr with
  | None =>
      jniThrowExceptionFmt IOException
        ("Invalid plat prefix address " +:+ platSubnetStr);;
      mret (-1)
  | Some plat_subnet =>
      emit (EvDetectMtu plat_subnet plat_suffix mark);;
      let r := clat_detect_mtu plat_subnet plat_suffix mark in
      if r <? 0 then
        jniThrowExceptionFmt IOException
          ("detect mtu failed: " +:+ strerror env (- r));;
        mret (-1)
      else mret r
  end.
End Natives.

(** *** JNI registration (lines 148-167) *)

(** The C types of the parameters and results of native methods. *)
Inductive jni_type :=
| jboolean | jbyte | jchar | jshort | jint | jlong | jfloat | jdouble
| jvoid | jstring_ref | jobject_ref | jarray_ref.

(** The four functions whose addresses the table holds. *)
Inductive native_function :=
| fn_selectIpv4Address
| fn_generateIpv6Address
| fn_createTunInterface
| fn_detectMtu.

(** The parameters that follow [JNIEnv*, jobject] and the result type, as
    the four function definitions declare them (lines 30-33, 60-61, 99-101,
    127-129). *)
Definition prototype (f : native_function) : list jni_type * jni_type :=
  match f with
  | fn_selectIpv4Address => ([jstring_ref; jint], jstring_ref)
  | fn_generateIpv6Address => ([jstring_ref; jstring_ref; jstring_ref], jstring_ref)
  | fn_createTunInterface => ([jstring_ref], jint)
  | fn_detectMtu => ([jstring_ref; jint; jint], jint)
  end.

Record JNINativeMethod := mk_JNINativeMethod {
  name : string;
  signature : string;
  fnPtr : native_function
}.

Definition gMethods : list JNINativeMethod :=
  [ mk_JNINativeMethod "selectIpv4Address" "(Ljava/lang/String;I)Ljava/lang/String;"
      fn_selectIpv4Address;
    mk_JNINativeMethod "generateIpv6Address"
      "(Ljava/lang/String;Ljava/lang/String;Ljava/lang/String;)Ljava/lang/String;"
      fn_generateIpv6Address;
    mk_JNINativeMethod "createTunInterface" "(Ljava/lang/String;)I"
      fn_createTunInterface;
    mk_JNINativeMethod "detectMtu" "(Ljava/lang/String;II)I" fn_detectMtu ].

(** [jniRegisterNativeMethods] is the caller's: class name, table, count. *)
Definition register_android_server_connectivity_ClatCoordinator
    (jniRegisterNativeMethods : string → list JNINativeMethod → nat → Z) : Z :=
  jniRegisterNativeMethods "com/android/server/connectivity/ClatCoordinator"
    gMethods (length gMethods).

(** *** JVM method descriptors

    The grammar of the signature strings (JVM specification 4.3.3), read
    into the C types JNI passes for them. *)

(** The text up to the first ';' and what follows it. *)
Fixpoint class_name (s : string) : option (string * string) :=
  match s with
  | "" => None
  | String c rest =>
      if is_char c ";" then Some ("", rest)
      else match class_name rest with
           | Some (cls, rest') => Some (String c cls, rest')
           | None => None
           end
  end.

Definition primitive_type (c : ascii) : option jni_type :=
  if is_char c "Z" then Some jboolean
  else if is_char c "B" then Some jbyte
  else if is_char c "C" then Some jchar
  else if is_char c "S" then Some jshort
  else if is_char c "I" then Some jint
  else if is_char c "J" then Some jlong
  else if is_char c "F" then Some jfloat
  else if is_char c "D" then Some jdouble
  else None.

(** One field type at the head of [s]; [fuel] bounds the array depth. *)
Fixpoint field_type (fuel : nat) (s : string) : option (jni_type * string) :=
  match s with
  | "" => None
  | String c rest =>
      match primitive_type c with
      | Some t => Some (t, rest)
      | None =>
          if is_char c "L" then
            match class_name rest with
            | Some (cls, rest') =>
                Some (if String.eqb cls "java/lang/String" then jstring_ref
                      else jobject_ref, rest')
            | None => None
            end
          else if is_char c "[" then
            match fuel with
            | O => None
            | S fuel' =>
                match field_type fuel' rest with
                | Some (_, rest') => Some (jarray_ref, rest')
                | None => None
                end
            end
          else None
      end
  end.

(** The parameter types up to ')' and what follows it. *)
Fixpoint parameter_types (fuel : nat) (s : string) : option (list jni_type * string) :=
  match fuel with
  | O => None
  | S fuel' =>
      match s with
      | "" => None
      | String c rest =>
          if is_char c ")" then Some ([], rest)
          else match field_type 255 s with
               | Some (t, rest') =>
                   match parameter_types fuel' rest' with
                   | Some (ts, rest'') => Some (t :: ts, rest'')
                   | None => None
                   end
               | None => None
               end
      end
  end.

Definition method_descriptor (s : string) : option (list jni_type * jni_type) :=
  match s with
  | String c rest =>
      if is_char c "(" then
        match parameter_types (S (String.length rest)) rest with
        | Some (params, after) =>
            if String.eqb after "V" then Some (params, jvoid)
            else match field_type 255 after with
                 | Some (t, "") => Some (params, t)
                 | _ => None
                 end
        | None => None
        end
      else None
  | "" => None
  end.
End android.

(** ** Vocabulary of the statements *)

Definition tun_open_flags : Z := Z.lor (Z.lor O_RDWR O_NONBLOCK) O_CLOEXEC.

Definition tun_request (name : string) : ifreq :=
  {| ifr_name := strlcpy name IFNAMSIZ; ifr_flags := IFF_TUN |}.

Definition open_failure_message (env : environment) (e : Z) : string :=
  "open tun device failed (" +:+ strerror env e +:+ ")".

Definition binding_failure_message (env : environment) (e : Z) : string :=
  "ioctl(TUNSETIFF) failed (" +:+ strerror env e +:+ ")".

Definition is_octet (b : Z) : Prop := 0 <= b <= 255.
Definition is_word (w : Z) : Prop := 0 <= w < 65536.

(** The decimal digits of an octet, as "%u" prints them. *)
Definition digit_char (d : Z) : ascii := ascii_of_N (Z.to_N (48 + d)).

Definition octet_digits (b : Z) : string :=
  if b <? 10 then String (digit_char b) ""
  else if b <? 100 then
    String (digit_char (b / 10)) (String (digit_char (b mod 10)) "")
  else
    String (digit_char (b / 100))
      (String (digit_char (b / 10 mod 10)) (String (digit_char (b mod 10)) "")).

(** The interface name in the request a tun descriptor was attached with. *)
Definition requested_name (st : state) (fd : Z) : option string :=
  f ← fdtable st !! fd; ifr ← f_tun_request f; Some (ifr_name ifr).

(** ** Sample surroundings *)

(** A link of MTU 1500. *)
Definition ethernet_link : ipv6_link :=
  {| ipv6_mtu := 1500; ipv6_mtu_min := proj1 (Z.leb_le 1280 1500) eq_refl |}.

(** A few rows of bionic's [strerror] table. *)
Definition strerror_bionic (e : Z) : string :=
  if e =? 1 then "Operation not permitted"
  else if e =? 13 then "Permission denied"
  else if e =? 16 then "Device or resource busy"
  else if e =? 22 then "Invalid argument"
  else if e =? 24 then "Too many open files"
  else if e =? 101 then "Network is unreachable"
  else if e =? 110 then "Connection timed out"
  else "Unknown error " +:+ pretty e.

(** Nothing fails, no address is configured, the path carries 1500 bytes. *)
Definition quiet_env : environment :=
  {| open_fails := None; tunsetiff_fails := None; close_fails := None;
     strerror := strerror_bionic;
     ifaddrs := [];
     entropy := fun _ k => 305397760 + 2566914048 * Z.of_nat k;
     retry_identifiers := 1;
     probe := fun _ _ _ => ProbeOk 1500;
     retry_probes := 2;
     local_link := ethernet_link |}.

(** The tun device is busy: TUNSETIFF fails with EBUSY. *)
Definition busy_tun_env : environment :=
  {| open_fails := None; tunsetiff_fails := Some 16%positive; close_fails := None;
     strerror := strerror_bionic;
     ifaddrs := []; entropy := entropy quiet_env;
     retry_identifiers := 1; probe := probe quiet_env;
     retry_probes := 2; local_link := ethernet_link |}.

(** wlan0 carries 192.0.0.1. *)
Definition one_address_env : environment :=
  {| open_fails := None; tunsetiff_fails := None; close_fails := None;
     strerror := strerror_bionic;
     ifaddrs := [mk_ifaddr "wlan0" (V4 3221225473)];
     entropy := entropy quiet_env;
     retry_identifiers := 1; probe := probe quiet_env;
     retry_probes := 2; local_link := ethernet_link |}.

(** Both hosts of 192.0.0.4/30 are taken, and so are the two addresses the
    generator would try on v4-wlan0 for 192.0.0.4 under 64:ff9b::/96
    (64:ff9b::1234:add0 and 64:ff9b::ab34:14d0). *)
Definition crowded_env : environment :=
  {| open_fails := None; tunsetiff_fails := None; close_fails := None;
     strerror := strerror_bionic;
     ifaddrs := [mk_ifaddr "wlan0" (V4 3221225477);
                 mk_ifaddr "rmnet0" (V4 3221225478);
                 mk_ifaddr "v4-wlan0" (V6 524413980667603649783483181617688016);
                 mk_ifaddr "v4-wlan0" (V6 524413980667603649783483184184562896)];
     entropy := entropy quiet_env;
     retry_identifiers := 1; probe := probe quiet_env;
     retry_probes := 2; local_link := ethernet_link |}.

(** Every probe times out (ETIMEDOUT). *)
Definition lossy_env : environment :=
  {| open_fails := None; tunsetiff_fails := None; close_fails := None;
     strerror := strerror_bionic;
     ifaddrs := []; entropy := entropy quiet_env;
     retry_identifiers := 1;
     probe := fun _ _ _ => ProbeErr 110%positive;
     retry_probes := 2; local_link := ethernet_link |}.

(** bionic's table with the row of EINTR. *)
Definition strerror_with_eintr (e : Z) : string :=
  if e =? 4 then "Interrupted system call" else strerror_bionic e.

(** TUNSETIFF fails with EBUSY and the close that follows is interrupted
    (EINTR). *)
Definition interrupted_close_env : environment :=
  {| open_fails := None; tunsetiff_fails := Some 16%positive;
     close_fails := Some 4%positive;
     strerror := strerror_with_eintr;
     ifaddrs := []; entropy := entropy quiet_env;
     retry_identifiers := 1; probe := probe quiet_env;
     retry_probes := 2; local_link := ethernet_link |}.

(** Helper libraries to run the open bridge with: a selector that always
    picks 192.0.0.4, a generator that always answers 64:ff9b::c000:4, a
    prober that always answers 1000; and failing ones. *)
Definition fixed_select (ip prefixlen : Z) : Z := 3221225476.
Definition fixed_generate (iface : string) (v4 nat64Prefix : Z) : Z * Z :=
  (0, 524413980667603649783483184533471236).
Definition failing_generate (iface : string) (v4 nat64Prefix : Z) : Z * Z :=
  (-101, 0).
Definition fixed_detect (plat_subnet plat_suffix mark : Z) : Z := 1000.
Definition failing_detect (plat_subnet plat_suffix mark : Z) : Z := -110.

(** * Properties *)

(** ** Running computations *)

Ltac unfold_M :=
  unfold mbind, M_bind, bind, mret, M_ret, ret, emit, get_errno, jniThrowExceptionFmt.

Ltac unfold_state :=
  unfold log, set_errno, set_fdtable, set_pending;
  cbn [fdtable errno pending trace fst snd].

(** ** Worked calls *)

Example select_in_empty_pool :
  fst (com_android_server_connectivity_ClatCoordinator_selectIpv4Address
         quiet_env "192.0.0.4" 29 initial_state) = Some "192.0.0.1".
Proof. vm_compute. reflexivity. Qed.

Example select_skips_configured_address :
  fst (com_android_server_connectivity_ClatCoordinator_selectIpv4Address
         one_address_env "192.0.0.4" 29 initial_state) = Some "192.0.0.2".
Proof. vm_compute. reflexivity. Qed.

Example generate_on_wlan0 :
  fst (com_android_server_connectivity_ClatCoordinator_generateIpv6Address
         quiet_env (Some "v4-wlan0") "192.0.0.4" "64:ff9b::" initial_state)
  = Some "64:ff9b::1234:add0"
  ∧ clat.checksum 305442256 = clat.checksum 3221225476.
Proof. vm_compute. split; reflexivity. Qed.

(** A prefix written with its length is not an address for [inet_pton]. *)
Example generate_rejects_prefix_length :
  pending (snd (com_android_server_connectivity_ClatCoordinator_generateIpv6Address
                  quiet_env (Some "v4-wlan0") "192.0.0.4" "64:ff9b::/96" initial_state))
  = Some (mk_jthrowable IOException "Invalid prefix 64:ff9b::/96").
Proof. vm_compute. reflexivity. Qed.

Example create_tun_on_busy_device :
  com_android_server_connectivity_ClatCoordinator_createTunInterface
    busy_tun_env "v4-wlan0" initial_state =
  (-1, {| fdtable := ∅; errno := 16;
          pending := Some (mk_jthrowable IOException
                             "ioctl(TUNSETIFF) failed (Device or resource busy)");
          trace := [EvOpen "/dev/net/tun" 526338 0;
                    EvIoctl 0 TUNSETIFF (mk_ifreq "v4-wlan0" IFF_TUN) (-1);
                    EvClose 0 0;
                    EvThrow IOException
                      "ioctl(TUNSETIFF) failed (Device or resource busy)"] |}).
Proof. vm_compute. reflexivity. Qed.

Example detect_mtu_on_lossy_path :
  com_android_server_connectivity_ClatCoordinator_detectMtu
    lossy_env "64:ff9b::" 0 0 initial_state =
  (-1, {| fdtable := ∅; errno := 0;
          pending := Some (mk_jthrowable IOException
                             "detect mtu failed: Connection timed out");
          trace := [EvDetectMtu 524413980667603649783483181312245760 0 0;
                    EvThrow IOException "detect mtu failed: Connection timed out"] |}).
Proof. vm_compute. reflexivity. Qed.

(** ** The descriptor table *)

Lemma lowest_from_ge (t : gmap Z file) fuel n : n <= lowest_from t fuel n.
Proof.
  revert n. induction fuel as [|k IH]; intros n; simpl; [lia|].
  destruct (t !! n); [|lia]. specialize (IH (n + 1)). lia.
Qed.

Lemma lowest_from_scan (t : gmap Z file) fuel n :
  t !! lowest_from t fuel n = None ∨
  ∀ i, n <= i < n + Z.of_nat fuel + 1 → is_Some (t !! i).
Proof.
  revert n. induction fuel as [|k IH]; intros n; simpl.
  - destruct (t !! n) eqn:E; [right|by left].
    intros i Hi. assert (i = n) as -> by lia. by rewrite E.
  - destruct (t !! n) eqn:E; [|by left].
    destruct (IH (n + 1)) as [H|H]; [by left|right].
    intros i Hi. destruct (decide (i = n)) as [->|Hne]; [by rewrite E|].
    apply H. lia.
Qed.

Lemma lowest_free_fd_nonneg (t : gmap Z file) : 0 <= lowest_free_fd t.
Proof. apply lowest_from_ge. Qed.

Lemma lowest_free_fd_fresh (t : gmap Z file) : t !! lowest_free_fd t = None.
Proof.
  unfold lowest_free_fd.
  destruct (lowest_from_scan t (size t) 0) as [H|H]; [done|exfalso].
  assert (list_to_set (seqZ 0 (Z.of_nat (size t) + 1)) ⊆ dom t) as Hsub.
  { intros i Hi. apply elem_of_list_to_set, elem_of_seqZ in Hi.
    apply elem_of_dom, H. lia. }
  apply subseteq_size in Hsub.
  rewrite size_list_to_set in Hsub by apply NoDup_seqZ.
  rewrite length_seqZ, size_dom in Hsub. lia.
Qed.

(** ** createTunInterface, outcome by outcome *)

Section CreateTunFacts.
Variable env : environment.
Abbreviation createTunInterface :=
  (com_android_server_connectivity_ClatCoordinator_createTunInterface env).

Lemma createTun_open_fails name st e :
  open_fails env = Some e →
  createTunInterface name st =
    (-1, log (EvThrow IOException (open_failure_message env (Z.pos e)))
           (set_pending (Some (mk_jthrowable IOException
                                 (open_failure_message env (Z.pos e))))
              (log (EvOpen "/dev/net/tun" tun_open_flags (-1))
                 (set_errno (Z.pos e) st)))).
Proof.
  intros Ho.
  unfold com_android_server_connectivity_ClatCoordinator_createTunInterface.
  unfold_M. unfold sys_open. rewrite Ho. reflexivity.
Qed.


Lemma createTun_binding_fails name st e :
  open_fails env = None →
  tunsetiff_fails env = Some e →
  let fd := lowest_free_fd (fdtable st) in
  let f := {| f_path := "/dev/net/tun"; f_flags := tun_open_flags; f_tun_request := None |} in
  let e' := match close_fails env with Some c => Z.pos c | None => Z.pos e end in
  let c := match close_fails env with Some _ => -1 | None => 0 end in
  createTunInterface name st =
    (-1, {| fdtable := fdtable st;
            errno := e';
            pending := Some (mk_jthrowable IOException (binding_failure_message env e'));
            trace := trace st ++
              [EvOpen "/dev/net/tun" tun_open_flags fd;
               EvIoctl fd TUNSETIFF (tun_request name) (-1);
               EvClose fd c;
               EvThrow IOException (binding_failure_message env e')] |}).
Proof.
  intros Ho Hi fd f e' c.
  pose proof (lowest_free_fd_nonneg (fdtable st)) as Hge.
  pose proof (lowest_free_fd_fresh (fdtable st)) as Hfresh.
  unfold com_android_server_connectivity_ClatCoordinator_createTunInterface.
  unfold_M. unfold sys_open. rewrite Ho. fold fd.
  destruct (fd =? -1) eqn:E; [lia|].
  unfold sys_ioctl. unfold_state.
  rewrite lookup_insert_eq, Z.eqb_refl. cbn [negb]. rewrite Hi.
  cbn [negb Z.eqb]. unfold sys_close. unfold_state.
  rewrite lookup_insert_eq, delete_insert_id by done.
  subst e' c. unfold binding_failure_message, tun_request.
  destruct (close_fails env); unfold_state;
    rewrite <- !(assoc_L (++)); reflexivity.
Qed.

Lemma createTun_succeeds name st :
  open_fails env = None →
  tunsetiff_fails env = None →
  let fd := lowest_free_fd (fdtable st) in
  let f := {| f_path := "/dev/net/tun"; f_flags := tun_open_flags;
              f_tun_request := Some (tun_request name) |} in
  createTunInterface name st =
    (fd, {| fdtable := <[fd := f]> (fdtable st);
            errno := errno st;
            pending := pending st;
            trace := trace st ++
              [EvOpen "/dev/net/tun" tun_open_flags fd;
               EvIoctl fd TUNSETIFF (tun_request name) 0] |}).
Proof.
  intros Ho Hi fd f.
  pose proof (lowest_free_fd_nonneg (fdtable st)) as Hge.
  unfold com_android_server_connectivity_ClatCoordinator_createTunInterface.
  unfold_M. unfold sys_open. rewrite Ho. fold fd.
  destruct (fd =? -1) eqn:E; [lia|].
  unfold sys_ioctl. unfold_state.
  rewrite lookup_insert_eq, Z.eqb_refl. cbn [negb]. rewrite Hi.
  unfold_state. cbn [f_path f_flags].
  rewrite insert_insert_eq, <- (assoc_L (++)). reflexivity.
Qed.
End CreateTunFacts.

(** ** C4: the failure paths of createTunInterface *)

(** C4. createTunInterface fails in exactly two ways, told apart by their
    messages: the device cannot be opened, or TUNSETIFF fails. In the second
    case the descriptor is closed before the exception is raised, and on
    both failure paths the descriptor table is what it was before the call. *)
Theorem createTunInterface_failure_paths (env : environment) (name : string) (st : state) :
  let '(r, st') :=
    com_android_server_connectivity_ClatCoordinator_createTunInterface env name st in
  let fd := lowest_free_fd (fdtable st) in
  ((open_fails env = None ∧ tunsetiff_fails env = None ∧
    r = fd ∧ 0 <= r ∧ pending st' = pending st ∧
    trace st' = trace st ++ [EvOpen "/dev/net/tun" tun_open_flags fd;
                             EvIoctl fd TUNSETIFF (tun_request name) 0])
   ∨
   (open_fails env ≠ None ∧ r = -1 ∧ fdtable st' = fdtable st ∧
    pending st' =
      Some (mk_jthrowable IOException (open_failure_message env (errno st'))) ∧
    trace st' = trace st ++
      [EvOpen "/dev/net/tun" tun_open_flags (-1);
       EvThrow IOException (open_failure_message env (errno st'))])
   ∨
   (open_fails env = None ∧ tunsetiff_fails env ≠ None ∧
    r = -1 ∧ fdtable st' = fdtable st ∧
    pending st' =
      Some (mk_jthrowable IOException (binding_failure_message env (errno st'))) ∧
    ∃ c, trace st' = trace st ++
      [EvOpen "/dev/net/tun" tun_open_flags fd;
       EvIoctl fd TUNSETIFF (tun_request name) (-1);
       EvClose fd c;
       EvThrow IOException (binding_failure_message env (errno st'))]))
  ∧ ∀ e1 e2, open_failure_message env e1 ≠ binding_failure_message env e2.
Proof.
  destruct (com_android_server_connectivity_ClatCoordinator_createTunInterface
              env name st) as [r st'] eqn:Hrun.
  split; [|intros e1 e2; discriminate].
  destruct (open_fails env) as [e|] eqn:Ho.
  - rewrite (createTun_open_fails env name st e Ho) in Hrun.
    injection Hrun as <- <-. right; left. unfold_state.
    rewrite <- (assoc_L (++)). by repeat split.
  - destruct (tunsetiff_fails env) as [e|] eqn:Hi.
    + rewrite (createTun_binding_fails env name st e Ho Hi) in Hrun.
      injection Hrun as <- <-. right; right. cbn [fdtable errno pending trace].
      repeat split; try done. eexists. reflexivity.
    + rewrite (createTun_succeeds env name st Ho Hi) in Hrun.
      injection Hrun as <- <-. left. cbn [fdtable errno pending trace].
      repeat split; try done. apply lowest_free_fd_nonneg.
Qed.

(** ** C9, C10: what a successful call leaves behind *)


Lemma string_take_length (n : nat) (s : string) :
  (n <= String.length s)%nat → String.length (string_take n s) = n.
Proof.
  revert n. induction s as [|c s IH]; intros [|n] H; simpl in *; try done; try lia.
  f_equal. apply IH. lia.
Qed.

Lemma string_take_prefix (n : nat) (s : string) :
  ∃ rest, s = string_take n s +:+ rest.
Proof.
  revert n. induction s as [|c s IH]; intros n.
  - exists "". by destruct n.
  - destruct n as [|n]; simpl.
    + by exists (String c s).
    + destruct (IH n) as [rest Hrest]. exists rest.
      change (String c s = String c (string_take n s +:+ rest)). by f_equal.
Qed.




(** C10. An over-long name is never rejected: the request handed to
    TUNSETIFF carries its first IFNAMSIZ - 1 bytes, the call returns the
    descriptor when opening the device and TUNSETIFF succeed, and the only
    exceptions it can raise are the two of the failure paths. *)
Theorem createTunInterface_truncates_long_names
    (env : environment) (name : string) (st : state) :
  (IFNAMSIZ <= String.length name)%nat →
  let short := string_take (IFNAMSIZ - 1) name in
  let fd := lowest_free_fd (fdtable st) in
  let '(r, st') :=
    com_android_server_connectivity_ClatCoordinator_createTunInterface env name st in
  String.length short = 15%nat ∧ short ≠ name ∧ (∃ rest, name = short +:+ rest) ∧
  (open_fails env = None →
     ∃ ret rest,
       trace st' = trace st ++
         EvOpen "/dev/net/tun" tun_open_flags fd ::
         EvIoctl fd TUNSETIFF {| ifr_name := short; ifr_flags := IFF_TUN |} ret :: rest) ∧
  (open_fails env = None → tunsetiff_fails env = None →
     r = fd ∧ pending st' = pending st) ∧
  (pending st' = pending st ∨
   (∃ e, pending st' = Some (mk_jthrowable IOException (open_failure_message env e))) ∨
   (∃ e, pending st' = Some (mk_jthrowable IOException (binding_failure_message env e)))).
Proof.
  intros Hlen short fd.
  destruct (com_android_server_connectivity_ClatCoordinator_createTunInterface
              env name st) as [r st'] eqn:Hrun.
  assert (String.length short = 15%nat) as Hshort.
  { apply string_take_length. unfold IFNAMSIZ in *. lia. }
  split; [done|]. split.
  { intros Heq. rewrite Heq in Hshort. unfold IFNAMSIZ in *. lia. }
  split; [apply string_take_prefix|]. split; [|split].
  - intros Ho. destruct (tunsetiff_fails env) as [e|] eqn:Hi.
    + rewrite (createTun_binding_fails env name st e Ho Hi) in Hrun.
      injection Hrun as <- <-. cbn [trace]. eexists _, _. reflexivity.
    + rewrite (createTun_succeeds env name st Ho Hi) in Hrun.
      injection Hrun as <- <-. cbn [trace]. eexists _, _. reflexivity.
  - intros Ho Hi. rewrite (createTun_succeeds env name st Ho Hi) in Hrun.
    injection Hrun as <- <-. cbn [pending]. by split.
  - destruct (open_fails env) as [e|] eqn:Ho.
    { rewrite (createTun_open_fails env name st e Ho) in Hrun.
      injection Hrun as <- <-. right; left. by eexists. }
    destruct (tunsetiff_fails env) as [e|] eqn:Hi.
    + rewrite (createTun_binding_fails env name st e Ho Hi) in Hrun.
      injection Hrun as <- <-. right; right. by eexists.
    + rewrite (createTun_succeeds env name st Ho Hi) in Hrun.
      injection Hrun as <- <-. by left.
Qed.

Lemma createTunInterface_truncates_long_names_witness :
  let '(r, st') :=
    com_android_server_connectivity_ClatCoordinator_createTunInterface
      quiet_env "v4-verylongiface0" initial_state in
  String.length "v4-verylongifac" = 15%nat ∧
  "v4-verylongifac" ≠ "v4-verylongiface0" ∧
  (∃ rest, "v4-verylongiface0" = "v4-verylongifac" +:+ rest) ∧
  (open_fails quiet_env = None →
     ∃ ret rest,
       trace st' = [] ++
         EvOpen "/dev/net/tun" tun_open_flags 0 ::
         EvIoctl 0 TUNSETIFF {| ifr_name := "v4-verylongifac"; ifr_flags := IFF_TUN |} ret
         :: rest) ∧
  (open_fails quiet_env = None → tunsetiff_fails quiet_env = None →
     r = 0 ∧ pending st' = None) ∧
  (pending st' = None ∨
   (∃ e, pending st' =
           Some (mk_jthrowable IOException (open_failure_message quiet_env e))) ∨
   (∃ e, pending st' =
           Some (mk_jthrowable IOException (binding_failure_message quiet_env e)))).
Proof.
  apply (createTunInterface_truncates_long_names quiet_env "v4-verylongiface0"
           initial_state).
  vm_compute. lia.
Defined.

(** ** C8: the interface name check of generateIpv6Address *)

Section GenerateFacts.
Variable env : environment.
Abbreviation generateIpv6Address :=
  (com_android_server_connectivity_ClatCoordinator_generateIpv6Address env).

Lemma generate_null_interface v4Str prefix64Str st :
  generateIpv6Address None v4Str prefix64Str st =
    (None, {| fdtable := fdtable st; errno := errno st;
              pending := Some (mk_jthrowable IOException "Invalid null interface name");
              trace := trace st ++
                [EvThrow NullPointerException "";
                 EvThrow IOException "Invalid null interface name"] |}).
Proof.
  unfold com_android_server_connectivity_ClatCoordinator_generateIpv6Address,
    ScopedUtfChars.
  unfold_M. unfold_state. by rewrite <- (assoc_L (++)).
Qed.

Lemma generate_invalid_v4 iface v4Str prefix64Str st :
  inet_pton AF_INET v4Str = None →
  generateIpv6Address (Some iface) v4Str prefix64Str st =
    (None, {| fdtable := fdtable st; errno := errno st;
              pending := Some (mk_jthrowable IOException
                                 ("Invalid clat v4 address " +:+ v4Str));
              trace := trace st ++
                [EvThrow IOException ("Invalid clat v4 address " +:+ v4Str)] |}).
Proof.
  intros H.
  unfold com_android_server_connectivity_ClatCoordinator_generateIpv6Address,
    ScopedUtfChars.
  unfold_M. by rewrite H.
Qed.

Lemma generate_invalid_prefix iface v4Str prefix64Str st v4 :
  inet_pton AF_INET v4Str = Some v4 →
  inet_pton AF_INET6 prefix64Str = None →
  generateIpv6Address (Some iface) v4Str prefix64Str st =
    (None, {| fdtable := fdtable st; errno := errno st;
              pending := Some (mk_jthrowable IOException
                                 ("Invalid prefix " +:+ prefix64Str));
              trace := trace st ++
                [EvThrow IOException ("Invalid prefix " +:+ prefix64Str)] |}).
Proof.
  intros H4 H6.
  unfold com_android_server_connectivity_ClatCoordinator_generateIpv6Address,
    ScopedUtfChars.
  unfold_M. by rewrite H4, H6.
Qed.

(** With both addresses well formed, the generator decides the outcome. *)
Lemma generate_valid_addresses iface v4Str prefix64Str st v4 nat64Prefix :
  inet_pton AF_INET v4Str = Some v4 →
  inet_pton AF_INET6 prefix64Str = Some nat64Prefix →
  generateIpv6Address (Some iface) v4Str prefix64Str st =
    let st1 := log (EvGenerateIpv6 iface v4 nat64Prefix) st in
    match clat.generateIpv6Address env iface v4 nat64Prefix with
    | None =>
        let msg := "Unable to find global source address on " +:+ iface +:+
                   " for " +:+ prefix64Str in
        (None, log (EvThrow IOException msg)
                 (set_pending (Some (mk_jthrowable IOException msg)) st1))
    | Some v6 => (inet_ntop AF_INET6 v6 INET6_ADDRSTRLEN, st1)
    end.
Proof.
  intros H4 H6.
  unfold com_android_server_connectivity_ClatCoordinator_generateIpv6Address,
    ScopedUtfChars.
  unfold_M. rewrite H4, H6.
  destruct (clat.generateIpv6Address env iface v4 nat64Prefix) as [v6|]; [|done].
  by destruct (inet_ntop AF_INET6 v6 INET6_ADDRSTRLEN).
Qed.
End GenerateFacts.

(** C8 (amended). generateIpv6Address rejects a null interface name, and
    only that: on a null name it raises "Invalid null interface name" before
    either address is parsed and before the generator is called, touching
    neither the descriptor table nor errno. A name that is not null, the
    empty one included, is handed to the generator as it is. *)
Theorem generateIpv6Address_interface_name_check
    (env : environment) (name v4Str prefix64Str : string) (v4 nat64Prefix : Z)
    (st : state) :
  inet_pton AF_INET v4Str = Some v4 →
  inet_pton AF_INET6 prefix64Str = Some nat64Prefix →
  (∀ v4Str' prefix64Str',
     com_android_server_connectivity_ClatCoordinator_generateIpv6Address
       env None v4Str' prefix64Str' st =
     (None, {| fdtable := fdtable st; errno := errno st;
               pending := Some (mk_jthrowable IOException "Invalid null interface name");
               trace := trace st ++
                 [EvThrow NullPointerException "";
                  EvThrow IOException "Invalid null interface name"] |}))
  ∧
  (∃ rest,
     trace (snd (com_android_server_connectivity_ClatCoordinator_generateIpv6Address
                   env (Some name) v4Str prefix64Str st)) =
     trace st ++ EvGenerateIpv6 name v4 nat64Prefix :: rest).
Proof.
  intros H4 H6. split.
  - intros. apply generate_null_interface.
  - rewrite (generate_valid_addresses env name v4Str prefix64Str st v4 nat64Prefix H4 H6).
    cbv zeta.
    destruct (clat.generateIpv6Address env name v4 nat64Prefix) as [v6|];
      unfold_state.
    + by exists [].
    + eexists. by rewrite <- (assoc_L (++)).
Qed.

Lemma generateIpv6Address_interface_name_check_witness :
  (∀ v4Str' prefix64Str',
     com_android_server_connectivity_ClatCoordinator_generateIpv6Address
       quiet_env None v4Str' prefix64Str' initial_state =
     (None, {| fdtable := ∅; errno := 0;
               pending := Some (mk_jthrowable IOException "Invalid null interface name");
               trace := [] ++
                 [EvThrow NullPointerException "";
                  EvThrow IOException "Invalid null interface name"] |}))
  ∧
  (∃ rest,
     trace (snd (com_android_server_connectivity_ClatCoordinator_generateIpv6Address
                   quiet_env (Some "") "192.0.0.4" "64:ff9b::" initial_state)) =
     [] ++ EvGenerateIpv6 "" 3221225476 524413980667603649783483181312245760 :: rest).
Proof.
  apply (generateIpv6Address_interface_name_check quiet_env "" "192.0.0.4" "64:ff9b::"
           3221225476 524413980667603649783483181312245760 initial_state).
  - vm_compute. reflexivity.
  - vm_compute. reflexivity.
Defined.

(** C8, as first stated, fails on the empty name: the generator is called
    with it and the call returns an address. *)
Lemma generateIpv6Address_empty_interface_name_accepted :
  com_android_server_connectivity_ClatCoordinator_generateIpv6Address
    quiet_env (Some "") "192.0.0.4" "64:ff9b::" initial_state =
  (Some "64:ff9b::1234:add0",
   {| fdtable := ∅; errno := 0; pending := None;
      trace := [EvGenerateIpv6 "" 3221225476 524413980667603649783483181312245760] |}).
Proof. vm_compute. reflexivity. Qed.

(** ** C3: malformed address strings *)

Section MalformedFacts.
Variable env : environment.

Lemma select_invalid_address v4addr prefixlen st :
  inet_pton AF_INET v4addr = None →
  com_android_server_connectivity_ClatCoordinator_selectIpv4Address
    env v4addr prefixlen st = (None, st).
Proof.
  intros H. unfold com_android_server_connectivity_ClatCoordinator_selectIpv4Address.
  by rewrite H.
Qed.

Lemma detectMtu_invalid_address platSubnet plat_suffix mark st :
  inet_pton AF_INET6 platSubnet = None →
  com_android_server_connectivity_ClatCoordinator_detectMtu
    env platSubnet plat_suffix mark st =
  (-1, {| fdtable := fdtable st; errno := errno st;
          pending := Some (mk_jthrowable IOException
                             ("Invalid plat prefix address " +:+ platSubnet));
          trace := trace st ++
            [EvThrow IOException ("Invalid plat prefix address " +:+ platSubnet)] |}).
Proof.
  intros H. unfold com_android_server_connectivity_ClatCoordinator_detectMtu.
  unfold_M. by rewrite H.
Qed.
End MalformedFacts.

(** C3. On the malformed address "192.0.0.256", selectIpv4Address returns
    null and leaves the state as it found it: no exception is pending, where
    generateIpv6Address and detectMtu raise IOException on a malformed
    address ([generate_invalid_v4], [generate_invalid_prefix],
    [detectMtu_invalid_address]). *)
Theorem selectIpv4Address_malformed_address_returns_null_silently
    (env : environment) (prefixlen : Z) (st : state) :
  com_android_server_connectivity_ClatCoordinator_selectIpv4Address
    env "192.0.0.256" prefixlen st = (None, st).
Proof. by apply select_invalid_address. Qed.

(** ** Subnet arithmetic *)


Section Subnets.
Variables ip prefixlen : Z.
Hypothesis prefixlen_range : 0 <= prefixlen <= 32.
Hypothesis ip_range : 0 <= ip < 2 ^ 32.








Lemma elem_of_host_candidates (a : Z) :
  a ∈ clat.host_candidates ip prefixlen ↔
  clat.network_address ip prefixlen < a < clat.broadcast_address ip prefixlen.
Proof. unfold clat.host_candidates. rewrite elem_of_seqZ. lia. Qed.
End Subnets.

Lemma assigned_v4_false (env : environment) (a : Z) :
  clat.assigned_v4 env a = false ↔ ∀ ifa, ifa ∈ ifaddrs env → ifa_addr ifa ≠ V4 a.
Proof.
  unfold clat.assigned_v4. rewrite <- not_true_iff_false, existsb_exists. split.
  - intros Hno ifa Hin Heq. apply Hno. exists ifa.
    rewrite <- list_elem_of_In. split; [done|]. rewrite Heq. apply Z.eqb_refl.
  - intros Hall (ifa & Hin & Heq). apply (Hall ifa); [by apply list_elem_of_In|].
    destruct (ifa_addr ifa); [|done]. apply Z.eqb_eq in Heq. by subst.
Qed.

(** ** Presentation of IPv4 addresses *)




Lemma string_length_append (s1 s2 : string) :
  String.length (s1 +:+ s2) = (String.length s1 + String.length s2)%nat.
Proof.
  induction s1 as [|c s1 IH]; [done|].
  change (String c s1 +:+ s2) with (String c (s1 +:+ s2)). simpl. by rewrite IH.
Qed.

Lemma addr_octet_range (a i : Z) : is_octet (addr_octet a i).
Proof.
  unfold addr_octet. change 255 with (Z.ones 8).
  rewrite Z.land_ones by lia. unfold is_octet.
  pose proof (Z.mod_pos_bound (Z.shiftr a (8 * (3 - i))) (2 ^ 8)). lia.
Qed.

Lemma pretty_octet_length (b : Z) : is_octet b → (String.length (pretty b) <= 3)%nat.
Proof.
  intros Hb.
  assert (forallb (fun n => (String.length (pretty n) <=? 3)%nat) (seqZ 0 256) = true)
    as Hall by (vm_compute; reflexivity).
  rewrite forallb_forall in Hall.
  apply Nat.leb_le, Hall, list_elem_of_In, elem_of_seqZ. unfold is_octet in Hb. lia.
Qed.

Lemma inet_ntop4_text_length (a : Z) : (String.length (inet_ntop4_text a) <= 15)%nat.
Proof.
  unfold inet_ntop4_text. rewrite !string_length_append.
  pose proof (pretty_octet_length _ (addr_octet_range a 0)).
  pose proof (pretty_octet_length _ (addr_octet_range a 1)).
  pose proof (pretty_octet_length _ (addr_octet_range a 2)).
  pose proof (pretty_octet_length _ (addr_octet_range a 3)).
  change (String.length ".") with 1%nat. lia.
Qed.

Lemma inet_ntop4_fits (a : Z) :
  inet_ntop AF_INET a INET_ADDRSTRLEN = Some (inet_ntop4_text a).
Proof.
  unfold inet_ntop, inet_ntop4, fit, INET_ADDRSTRLEN.
  pose proof (inet_ntop4_text_length a).
  destruct (Nat.leb_spec 16 (String.length (inet_ntop4_text a))); [lia|done].
Qed.

(** ** C2, C6: selectIpv4Address *)

Lemma select_valid_address env v4addr prefixlen st ip :
  inet_pton AF_INET v4addr = Some ip →
  com_android_server_connectivity_ClatCoordinator_selectIpv4Address
    env v4addr prefixlen st =
  let st1 := log (EvSelectIpv4 ip prefixlen) st in
  let v4 := clat.selectIpv4Address env ip prefixlen in
  if v4 =? INADDR_NONE then
    let msg := "No free IPv4 address in " +:+ v4addr +:+ "/" +:+ pretty prefixlen in
    (None, log (EvThrow IOException msg)
             (set_pending (Some (mk_jthrowable IOException msg)) st1))
  else (inet_ntop AF_INET v4 INET_ADDRSTRLEN, st1).
Proof.
  intros H. unfold com_android_server_connectivity_ClatCoordinator_selectIpv4Address.
  unfold_M. rewrite H. cbv zeta.
  destruct (_ =? INADDR_NONE); [done|].
  by destruct (inet_ntop AF_INET _ INET_ADDRSTRLEN).
Qed.



(** C6. With a well-formed base address and every host address of the
    subnet carried by some local interface, selectIpv4Address raises
    "No free IPv4 address in base/prefixlen" and returns null. *)
Theorem selectIpv4Address_exhausted_pool
    (env : environment) (v4addr : string) (base prefixlen : Z) (st : state) :
  inet_pton AF_INET v4addr = Some base →
  (∀ a, clat.network_address base prefixlen < a < clat.broadcast_address base prefixlen →
        ∃ ifa, ifa ∈ ifaddrs env ∧ ifa_addr ifa = V4 a) →
  let msg := "No free IPv4 address in " +:+ v4addr +:+ "/" +:+ pretty prefixlen in
  com_android_server_connectivity_ClatCoordinator_selectIpv4Address
    env v4addr prefixlen st =
  (None, {| fdtable := fdtable st; errno := errno st;
            pending := Some (mk_jthrowable IOException msg);
            trace := trace st ++ [EvSelectIpv4 base prefixlen;
                                  EvThrow IOException msg] |}).
Proof.
  intros Hbase Hfull msg.
  rewrite (select_valid_address env v4addr prefixlen st base Hbase). cbv zeta.
  assert (clat.selectIpv4Address env base prefixlen = INADDR_NONE) as ->.
  { unfold clat.selectIpv4Address.
    destruct (find _ _) as [a|] eqn:Hfind; [exfalso|done].
    apply find_some in Hfind as [Hin Hfree].
    apply list_elem_of_In, elem_of_host_candidates in Hin.
    apply negb_true_iff in Hfree.
    destruct (Hfull a Hin) as (ifa & Hifa & Haddr).
    by apply (proj1 (assigned_v4_false env a) Hfree ifa Hifa). }
  rewrite Z.eqb_refl. unfold_state. by rewrite <- (assoc_L (++)).
Qed.

Lemma selectIpv4Address_exhausted_pool_witness :
  com_android_server_connectivity_ClatCoordinator_selectIpv4Address
    crowded_env "192.0.0.4" 30 initial_state =
  (None, {| fdtable := ∅; errno := 0;
            pending := Some (mk_jthrowable IOException
                               "No free IPv4 address in 192.0.0.4/30");
            trace := [EvSelectIpv4 3221225476 30;
                      EvThrow IOException "No free IPv4 address in 192.0.0.4/30"] |}).
Proof.
  apply (selectIpv4Address_exhausted_pool crowded_env "192.0.0.4" 3221225476 30
           initial_state).
  - vm_compute. reflexivity.
  - intros a Ha.
    change (clat.network_address 3221225476 30) with 3221225476 in Ha.
    change (clat.broadcast_address 3221225476 30) with 3221225479 in Ha.
    assert (a = 3221225477 ∨ a = 3221225478) as [-> | ->] by lia.
    + exists (mk_ifaddr "wlan0" (V4 3221225477)). split; [|done].
      apply list_elem_of_In. simpl. tauto.
    + exists (mk_ifaddr "rmnet0" (V4 3221225478)). split; [|done].
      apply list_elem_of_In. simpl. tauto.
Defined.

(** ** Ones-complement sums *)

Lemma land_65535 (x : Z) : Z.land x 65535 = x mod 65536.
Proof. change 65535 with (Z.ones 16). by rewrite Z.land_ones. Qed.







Section Neutrality.
Variable env : environment.





End Neutrality.

(** ** Presentation of IPv6 addresses: the text always fits *)

Lemma addr_word_range (a i : Z) : is_word (addr_word a i).
Proof.
  unfold addr_word. rewrite land_65535. unfold is_word. by apply Z.mod_pos_bound.
Qed.

Lemma hex_go_length (fuel : nat) (x : Z) (acc : string) (n : nat) :
  0 <= x < 16 ^ Z.of_nat n →
  (String.length (hex_go fuel x acc) <= String.length acc + Nat.max n 1)%nat.
Proof.
  revert x acc n. induction fuel as [|k IH]; intros x acc n Hx; simpl; [lia|].
  destruct (Z.eqb_spec (x / 16) 0) as [Hq|Hq]; [simpl; lia|].
  destruct n as [|n].
  { change (16 ^ Z.of_nat 0) with 1 in Hx. assert (x = 0) as -> by lia. done. }
  assert (0 <= x / 16 < 16 ^ Z.of_nat n) as Hx'.
  { split; [apply Z.div_pos; lia|].
    apply Z.div_lt_upper_bound; [lia|].
    rewrite <- Z.pow_succ_r by lia. rewrite <- Nat2Z.inj_succ. lia. }
  specialize (IH (x / 16) (String (hex_char (x mod 16)) acc) n Hx').
  destruct n as [|n].
  { change (16 ^ Z.of_nat 0) with 1 in Hx'. lia. }
  simpl in IH. lia.
Qed.

Lemma hex_word_length (w : Z) : is_word w → (String.length (hex w) <= 4)%nat.
Proof.
  intros Hw. unfold hex.
  pose proof (hex_go_length (S (Z.to_nat (Z.log2 w))) w "" 4) as H.
  change (16 ^ Z.of_nat 4) with 65536 in H. simpl in H. apply H. apply Hw.
Qed.

Section Ntop6Length.
Variables (best : option (nat * nat)) (w5 w7 low32 : Z).

Lemma ntop6_groups_plain (ws : list Z) (i : nat) :
  (∀ j, encapsulated_v4 best w5 w7 j = false) →
  Forall is_word ws →
  (String.length (ntop6_groups best w5 w7 low32 ws i) <= 5 * length ws)%nat.
Proof.
  intros Hplain Hws. revert i.
  induction Hws as [|w ws Hw _ IH]; intros i; [simpl; lia|].
  cbn [ntop6_groups length]. specialize (IH (S i)). rewrite Hplain.
  pose proof (hex_word_length w Hw).
  destruct (in_run best i); rewrite !string_length_append.
  - destruct (run_starts best i); simpl; lia.
  - destruct (i =? 0)%nat; simpl; lia.
Qed.

Lemma encapsulated_v4_shape (j : nat) :
  encapsulated_v4 best w5 w7 j = true →
  j = 6%nat ∧ ∃ l, best = Some (0%nat, l) ∧ (l = 5 ∨ l = 6 ∨ l = 7)%nat.
Proof.
  unfold encapsulated_v4. destruct best as [[b l]|]; [|done].
  intros H. apply andb_true_iff in H as [H Hl].
  apply andb_true_iff in H as [Hj%Nat.eqb_eq Hb%Nat.eqb_eq]. subst j b.
  split; [done|]. exists l. split; [done|].
  repeat (apply orb_true_iff in Hl as [Hl|Hl]);
    repeat (apply andb_true_iff in Hl as [Hl _]); apply Nat.eqb_eq in Hl; lia.
Qed.
End Ntop6Length.

Lemma inet_ntop6_text_length (a : Z) : (String.length (inet_ntop6_text a) <= 45)%nat.
Proof.
  unfold inet_ntop6_text.
  set (ws := (λ i : nat, addr_word a (Z.of_nat i)) <$> seq 0 8).
  set (best := best_run ws). set (w5 := addr_word a 5). set (w7 := addr_word a 7).
  set (low := Z.land a 4294967295).
  assert (Forall is_word ws) as Hws.
  { apply Forall_fmap, Forall_forall. intros i _. apply addr_word_range. }
  rewrite string_length_append.
  destruct (encapsulated_v4 best w5 w7 6) eqn:Henc.
  - destruct (encapsulated_v4_shape best w5 w7 6 Henc) as (_ & l & Hbest & Hl).
    pose proof (inet_ntop4_text_length low) as H4.
    pose proof (hex_word_length _ (addr_word_range a 5)) as H5.
    pose proof (hex_word_length _ (addr_word_range a 7)) as H7.
    rewrite Hbest in *. clear Hbest best.
    subst ws. cbn [fmap list_fmap seq].
    destruct Hl as [-> | [-> | ->]];
      cbn [ntop6_groups in_run run_starts Nat.leb Nat.ltb Nat.eqb Nat.add andb];
      rewrite ?Henc; rewrite ?string_length_append;
      cbn [encapsulated_v4 Nat.eqb andb]; rewrite ?string_length_append;
      cbn [String.length Nat.add Nat.eqb];
      change (Z.of_nat 5) with 5; change (Z.of_nat 7) with 7; lia.
  - assert (∀ j, encapsulated_v4 best w5 w7 j = false) as Hplain.
    { intros j. destruct (encapsulated_v4 best w5 w7 j) eqn:E; [|done].
      destruct (encapsulated_v4_shape best w5 w7 j E) as [-> _]. congruence. }
    pose proof (ntop6_groups_plain best w5 w7 low ws 0 Hplain Hws) as Hlen.
    assert (length ws = 8%nat) as Hl8 by done. rewrite Hl8 in Hlen.
    destruct best as [[b l]|]; [destruct (b + l =? 8)%nat|];
      change (String.length ":") with 1%nat;
      change (String.length "") with 0%nat; lia.
Qed.

Lemma inet_ntop6_fits (a : Z) :
  inet_ntop AF_INET6 a INET6_ADDRSTRLEN = Some (inet_ntop6_text a).
Proof.
  unfold inet_ntop, inet_ntop6, fit, INET6_ADDRSTRLEN.
  pose proof (inet_ntop6_text_length a).
  destruct (Nat.leb_spec 46 (String.length (inet_ntop6_text a))); [lia|done].
Qed.

(** ** C1: generateIpv6Address *)




(** ** C5, C7: detectMtu *)

Section ProbeFacts.
Variable env : environment.
Variables dest mark : Z.

(** The prober either stops at the first probe that gets through, or runs
    out of probes and reports the error of the last one. *)
Lemma probe_from_cases (budget k : nat) (last : positive) :
  (∃ j size, (k <= j < k + budget)%nat ∧ probe env dest mark j = ProbeOk size ∧
             clat.probe_from env dest mark budget k last = clat.clamp_mtu env size)
  ∨
  ((∀ j, (k <= j < k + budget)%nat → ∃ e, probe env dest mark j = ProbeErr e) ∧
   ∃ e, clat.probe_from env dest mark budget k last = Z.neg e ∧
        ((budget = 0%nat ∧ e = last) ∨
         (0 < budget ∧ probe env dest mark (k + budget - 1) = ProbeErr e)%nat)).
Proof.
  revert k last. induction budget as [|budget IH]; intros k last.
  - right. split; [lia|]. exists last. split; [done|]. by left.
  - cbn [clat.probe_from]. destruct (probe env dest mark k) as [size|e] eqn:Hk.
    + left. exists k, size. split; [lia|done].
    + destruct (IH (S k) e) as [(j & size & Hj & Hp & Hr)|(Hall & e' & Hr & Hlast)].
      * left. exists j, size. split; [lia|done].
      * right. split.
        { intros j Hj. destruct (decide (j = k)) as [->|]; [by exists e|].
          apply Hall. lia. }
        exists e'. split; [done|]. right. split; [lia|].
        destruct Hlast as [[-> ->]|[Hpos Hp]].
        -- by rewrite Nat.add_sub.
        -- replace (k + S budget - 1)%nat with (S k + budget - 1)%nat by lia. done.
Qed.

Lemma detect_mtu_cases :
  (∃ j size, (j <= retry_probes env)%nat ∧ probe env dest mark j = ProbeOk size ∧
             ∀ plat_subnet plat_suffix, plat_subnet + plat_suffix = dest →
               clat.detect_mtu env plat_subnet plat_suffix mark = clat.clamp_mtu env size)
  ∨
  ((∀ j, (j <= retry_probes env)%nat → ∃ e, probe env dest mark j = ProbeErr e) ∧
   ∃ e, probe env dest mark (retry_probes env) = ProbeErr e ∧
        ∀ plat_subnet plat_suffix, plat_subnet + plat_suffix = dest →
          clat.detect_mtu env plat_subnet plat_suffix mark = Z.neg e).
Proof.
  unfold clat.detect_mtu.
  destruct (probe env dest mark 0) as [size|e0] eqn:H0.
  - left. exists 0%nat, size. split; [lia|]. split; [done|].
    intros ?? <-. cbv zeta. by rewrite H0.
  - destruct (probe_from_cases (retry_probes env) 1 e0)
      as [(j & size & Hj & Hp & Hr)|(Hall & e & Hr & Hlast)].
    + left. exists j, size. split; [lia|]. split; [done|].
      intros ?? <-. cbv zeta. by rewrite H0.
    + right. split.
      { intros j Hj. destruct (decide (j = 0%nat)) as [->|]; [by exists e0|].
        apply Hall. lia. }
      exists e. split.
      * destruct Hlast as [[Hb ->]|[Hpos Hp]]; [by rewrite Hb|].
        by replace (1 + retry_probes env - 1)%nat with (retry_probes env) in Hp by lia.
      * intros ?? <-. cbv zeta. by rewrite H0.
Qed.
End ProbeFacts.

Lemma detectMtu_valid_address env platSubnet plat_suffix mark st plat_subnet :
  inet_pton AF_INET6 platSubnet = Some plat_subnet →
  com_android_server_connectivity_ClatCoordinator_detectMtu
    env platSubnet plat_suffix mark st =
  let st1 := log (EvDetectMtu plat_subnet plat_suffix mark) st in
  let r := clat.detect_mtu env plat_subnet plat_suffix mark in
  if r <? 0 then
    let msg := "detect mtu failed: " +:+ strerror env (- r) in
    (-1, log (EvThrow IOException msg)
           (set_pending (Some (mk_jthrowable IOException msg)) st1))
  else (r, st1).
Proof.
  intros H. unfold com_android_server_connectivity_ClatCoordinator_detectMtu.
  unfold_M. rewrite H. cbv zeta.
  by destruct (clat.detect_mtu env plat_subnet plat_suffix mark <? 0).
Qed.

Lemma clamp_mtu_lower env size : clat.IPV6_MIN_MTU <= clat.clamp_mtu env size.
Proof. unfold clat.clamp_mtu. lia. Qed.




(** C7. Once the address string is accepted, a failing detectMtu raises
    an exception whose message carries the text of the error code of the
    last probe, and returns -1; a succeeding one raises nothing and returns
    a positive value. *)
Theorem detectMtu_failure_carries_error_code
    (env : environment) (platSubnet : string) (plat_subnet plat_suffix mark : Z)
    (st : state) :
  inet_pton AF_INET6 platSubnet = Some plat_subnet →
  let '(r, st') :=
    com_android_server_connectivity_ClatCoordinator_detectMtu
      env platSubnet plat_suffix mark st in
  (∃ e, probe env (plat_subnet + plat_suffix) mark (retry_probes env) = ProbeErr e ∧
        clat.detect_mtu env plat_subnet plat_suffix mark = - Z.pos e ∧
        r = -1 ∧
        pending st' =
          Some (mk_jthrowable IOException
                  ("detect mtu failed: " +:+ strerror env (Z.pos e))))
  ∨
  (0 < r ∧ r = clat.detect_mtu env plat_subnet plat_suffix mark ∧
   pending st' = pending st).
Proof.
  intros Hplat.
  rewrite (detectMtu_valid_address env platSubnet plat_suffix mark st plat_subnet Hplat).
  cbv zeta.
  destruct (detect_mtu_cases env (plat_subnet + plat_suffix) mark)
    as [(j & size & Hj & Hp & Hr)|(Hall & e & Hp & Hr)];
    rewrite (Hr plat_subnet plat_suffix eq_refl).
  - pose proof (clamp_mtu_lower env size) as Hlo. unfold clat.IPV6_MIN_MTU in *.
    destruct (Z.ltb_spec (clat.clamp_mtu env size) 0); [lia|].
    right. repeat split; try done; lia.
  - change (Z.neg e <? 0) with true. cbv iota.
    left. exists e. repeat split; done.
Qed.

Lemma detectMtu_failure_carries_error_code_witness :
  let '(r, st') :=
    com_android_server_connectivity_ClatCoordinator_detectMtu
      lossy_env "64:ff9b::" 0 0 initial_state in
  (∃ e, probe lossy_env (524413980667603649783483181312245760 + 0) 0
          (retry_probes lossy_env) = ProbeErr e ∧
        clat.detect_mtu lossy_env 524413980667603649783483181312245760 0 0
          = - Z.pos e ∧
        r = -1 ∧
        pending st' =
          Some (mk_jthrowable IOException
                  ("detect mtu failed: " +:+ strerror lossy_env (Z.pos e))))
  ∨
  (0 < r ∧ r = clat.detect_mtu lossy_env 524413980667603649783483181312245760 0 0 ∧
   pending st' = pending initial_state).
Proof.
  apply (detectMtu_failure_carries_error_code lossy_env "64:ff9b::"
           524413980667603649783483181312245760 0 0 initial_state).
  vm_compute. reflexivity.
Defined.


(** * The bridge over any helper library *)

(** ** The claimed methods are instances of the open ones *)

Lemma selectIpv4Address_instance env v4addr prefixlen st :
  com_android_server_connectivity_ClatCoordinator_selectIpv4Address
    env v4addr prefixlen st =
  android.com_android_server_connectivity_ClatCoordinator_selectIpv4Address
    (clat.selectIpv4Address env) v4addr prefixlen st.
Proof. reflexivity. Qed.

Lemma generateIpv6Address_instance env ifaceStr v4Str prefix64Str st :
  com_android_server_connectivity_ClatCoordinator_generateIpv6Address
    env ifaceStr v4Str prefix64Str st =
  android.com_android_server_connectivity_ClatCoordinator_generateIpv6Address
    (fun iface v4 nat64Prefix =>
       match clat.generateIpv6Address env iface v4 nat64Prefix with
       | Some v6 => (0, v6)
       | None => (-1, 0)
       end) ifaceStr v4Str prefix64Str st.
Proof.
  unfold com_android_server_connectivity_ClatCoordinator_generateIpv6Address,
    android.com_android_server_connectivity_ClatCoordinator_generateIpv6Address.
  unfold_M. destruct (ScopedUtfChars ifaceStr st) as [[iface|] st1]; [|reflexivity].
  destruct (inet_pton AF_INET v4Str); [|reflexivity].
  destruct (inet_pton AF_INET6 prefix64Str); [|reflexivity].
  destruct (clat.generateIpv6Address env iface _ _) as [v6|];
    lazy beta iota zeta delta [negb Z.eqb]; [|reflexivity].
  destruct (inet_ntop AF_INET6 v6 INET6_ADDRSTRLEN); reflexivity.
Qed.

Lemma detectMtu_instance env platSubnet plat_suffix mark st :
  com_android_server_connectivity_ClatCoordinator_detectMtu
    env platSubnet plat_suffix mark st =
  android.com_android_server_connectivity_ClatCoordinator_detectMtu
    env (clat.detect_mtu env) platSubnet plat_suffix mark st.
Proof. reflexivity. Qed.

(** ** Text and binary forms of an IPv4 address agree *)

Lemma string_append_nil_r (s : string) : s +:+ "" = s.
Proof.
  induction s as [|c s IH]; [done|].
  change (String c s +:+ "") with (String c (s +:+ "")). by rewrite IH.
Qed.

Lemma string_append_assoc (s1 s2 s3 : string) : (s1 +:+ s2) +:+ s3 = s1 +:+ s2 +:+ s3.
Proof.
  induction s1 as [|c s1 IH]; [done|].
  change (String c (s1 +:+ s2) +:+ s3 = String c (s1 +:+ s2 +:+ s3)).
  change (String c ((s1 +:+ s2) +:+ s3) = String c (s1 +:+ s2 +:+ s3)).
  by rewrite IH.
Qed.

Lemma digit_of_digit_char (d : Z) :
  0 <= d <= 9 → digit_of (digit_char d) = Some d.
Proof.
  intros Hd.
  assert (d = 0 ∨ d = 1 ∨ d = 2 ∨ d = 3 ∨ d = 4 ∨ d = 5 ∨ d = 6 ∨ d = 7 ∨ d = 8 ∨ d = 9)
    as Hcases by lia.
  repeat (destruct Hcases as [->|Hcases]; [reflexivity|]). by subst.
Qed.

Lemma pretty_octet_digits (b : Z) :
  is_octet b → pretty b = octet_digits b.
Proof.
  intros Hb.
  assert (forallb (fun n => String.eqb (pretty n) (octet_digits n)) (seqZ 0 256) = true)
    as Hall by (vm_compute; reflexivity).
  rewrite forallb_forall in Hall.
  apply String.eqb_eq, Hall, list_elem_of_In, elem_of_seqZ. unfold is_octet in Hb. lia.
Qed.

Lemma inet_pton4_first_digit (d : Z) (rest : string) (done : list Z) (octets : nat) :
  0 <= d <= 9 →
  inet_pton4_loop (String (digit_char d) rest) done 0 false octets =
  if (4 <? S octets)%nat then None
  else inet_pton4_loop rest done d true (S octets).
Proof.
  intros Hd. cbn [inet_pton4_loop]. rewrite (digit_of_digit_char d Hd).
  cbn [andb]. change (0 * 10 + d) with d.
  by destruct (Z.ltb_spec 255 d); [lia|].
Qed.

Lemma inet_pton4_next_digit (d cur : Z) (rest : string) (done : list Z) (octets : nat) :
  0 <= d <= 9 → cur ≠ 0 → cur * 10 + d <= 255 →
  inet_pton4_loop (String (digit_char d) rest) done cur true octets =
  inet_pton4_loop rest done (cur * 10 + d) true octets.
Proof.
  intros Hd Hcur Hnew. cbn [inet_pton4_loop]. rewrite (digit_of_digit_char d Hd).
  cbn [andb]. destruct (Z.eqb_spec cur 0); [done|].
  by destruct (Z.ltb_spec 255 (cur * 10 + d)); [lia|].
Qed.

(** Reading the decimal text of an octet leaves that octet in [*tp]. *)
Lemma inet_pton4_reads_octet (b : Z) :
  is_octet b →
  ∀ rest done octets,
    inet_pton4_loop (pretty b +:+ rest) done 0 false octets =
    if (4 <? S octets)%nat then None
    else inet_pton4_loop rest done b true (S octets).
Proof.
  intros Hb rest done octets. rewrite (pretty_octet_digits b Hb).
  unfold is_octet in Hb. unfold octet_digits.
  destruct (Z.ltb_spec b 10) as [H10|H10].
  - change (String (digit_char b) "" +:+ rest) with (String (digit_char b) rest).
    apply inet_pton4_first_digit. lia.
  - assert (0 <= b mod 10 <= 9) as Hd0 by (pose proof (Z.mod_pos_bound b 10); lia).
    destruct (Z.ltb_spec b 100) as [H100|H100].
    + change (String (digit_char (b / 10)) (String (digit_char (b mod 10)) "") +:+ rest)
        with (String (digit_char (b / 10)) (String (digit_char (b mod 10)) rest)).
      assert (1 <= b / 10 <= 9) as Hd1 by (Z.div_mod_to_equations; lia).
      rewrite inet_pton4_first_digit by lia.
      destruct (4 <? S octets)%nat; [done|].
      rewrite inet_pton4_next_digit by (try done; Z.div_mod_to_equations; lia).
      f_equal. Z.div_mod_to_equations. lia.
    + change (String (digit_char (b / 100))
                (String (digit_char (b / 10 mod 10))
                   (String (digit_char (b mod 10)) "")) +:+ rest)
        with (String (digit_char (b / 100))
                (String (digit_char (b / 10 mod 10))
                   (String (digit_char (b mod 10)) rest))).
      assert (1 <= b / 100 <= 2) as Hd2 by (Z.div_mod_to_equations; lia).
      assert (0 <= b / 10 mod 10 <= 9) as Hd1
        by (pose proof (Z.mod_pos_bound (b / 10) 10); lia).
      rewrite inet_pton4_first_digit by lia.
      destruct (4 <? S octets)%nat; [done|].
      rewrite inet_pton4_next_digit by (try done; Z.div_mod_to_equations; lia).
      rewrite inet_pton4_next_digit by (try done; Z.div_mod_to_equations; lia).
      f_equal. Z.div_mod_to_equations. lia.
Qed.

Lemma inet_pton4_reads_dot (rest : string) (done : list Z) (cur : Z) (octets : nat) :
  octets ≠ 4%nat →
  inet_pton4_loop ("." +:+ rest) done cur true octets =
  inet_pton4_loop rest (cur :: done) 0 false octets.
Proof.
  intros Hne. change ("." +:+ rest) with (String "." rest).
  cbn [inet_pton4_loop]. change (digit_of ".") with (@None Z). cbv iota.
  change (is_char "." "." && true) with true. cbv iota.
  by destruct (Nat.eqb_spec octets 4).
Qed.

Lemma octets_of_addr (a : Z) :
  0 <= a < 2 ^ 32 →
  octets_to_addr [addr_octet a 0; addr_octet a 1; addr_octet a 2; addr_octet a 3] = a.
Proof.
  intros Ha. unfold octets_to_addr, addr_octet. cbn [fold_left].
  change 255 with (Z.ones 8). rewrite !Z.land_ones, !Z.shiftr_div_pow2 by lia.
  change (8 * (3 - 0)) with 24. change (8 * (3 - 1)) with 16.
  change (8 * (3 - 2)) with 8. change (8 * (3 - 3)) with 0.
  change (2 ^ 32) with 4294967296 in Ha.
  change (2 ^ 24) with 16777216. change (2 ^ 16) with 65536.
  change (2 ^ 8) with 256. change (2 ^ 0) with 1.
  Z.div_mod_to_equations. lia.
Qed.

Lemma inet_pton4_ntop4 (a : Z) :
  0 <= a < 2 ^ 32 → inet_pton AF_INET (inet_ntop4_text a) = Some a.
Proof.
  intros Ha. unfold inet_pton, inet_pton4, inet_ntop4_text.
  rewrite inet_pton4_reads_octet by apply addr_octet_range.
  change (4 <? 1)%nat with false. cbv iota.
  rewrite inet_pton4_reads_dot by done.
  rewrite inet_pton4_reads_octet by apply addr_octet_range.
  change (4 <? 2)%nat with false. cbv iota.
  rewrite inet_pton4_reads_dot by done.
  rewrite inet_pton4_reads_octet by apply addr_octet_range.
  change (4 <? 3)%nat with false. cbv iota.
  rewrite inet_pton4_reads_dot by done.
  rewrite <- (string_append_nil_r (pretty (addr_octet a 3))).
  rewrite inet_pton4_reads_octet by apply addr_octet_range.
  change (4 <? 4)%nat with false. cbv iota.
  cbn [inet_pton4_loop Nat.ltb Nat.leb rev app fmap option_fmap option_map].
  by rewrite octets_of_addr.
Qed.

(** ** The open methods, outcome by outcome *)

Section OpenBridgeFacts.
Variable env : environment.
Variable sel : Z → Z → Z.
Variable gen : string → Z → Z → Z * Z.
Variable det : Z → Z → Z → Z.

Abbreviation selectIpv4Address :=
  (android.com_android_server_connectivity_ClatCoordinator_selectIpv4Address sel).
Abbreviation generateIpv6Address' :=
  (android.com_android_server_connectivity_ClatCoordinator_generateIpv6Address gen).
Abbreviation detectMtu :=
  (android.com_android_server_connectivity_ClatCoordinator_detectMtu env det).

Lemma open_select_run v4addr prefixlen st :
  selectIpv4Address v4addr prefixlen st =
  match inet_pton AF_INET v4addr with
  | None => (None, st)
  | Some ip =>
      let st1 := log (EvSelectIpv4 ip prefixlen) st in
      if sel ip prefixlen =? INADDR_NONE then
        let msg := "No free IPv4 address in " +:+ v4addr +:+ "/" +:+ pretty prefixlen in
        (None, log (EvThrow IOException msg)
                 (set_pending (Some (mk_jthrowable IOException msg)) st1))
      else (Some (inet_ntop4_text (sel ip prefixlen)), st1)
  end.
Proof.
  unfold android.com_android_server_connectivity_ClatCoordinator_selectIpv4Address.
  unfold_M. destruct (inet_pton AF_INET v4addr) as [ip|]; [|reflexivity].
  cbv zeta. destruct (_ =? INADDR_NONE); [reflexivity|].
  by rewrite inet_ntop4_fits.
Qed.

Lemma open_generate_run ifaceStr v4Str prefix64Str st :
  generateIpv6Address' ifaceStr v4Str prefix64Str st =
  let raise msg st0 :=
    (None, log (EvThrow IOException msg)
             (set_pending (Some (mk_jthrowable IOException msg)) st0)) in
  match ifaceStr with
  | None =>
      raise "Invalid null interface name"
        (log (EvThrow NullPointerException "")
           (set_pending (Some (mk_jthrowable NullPointerException "")) st))
  | Some iface =>
      match inet_pton AF_INET v4Str with
      | None => raise ("Invalid clat v4 address " +:+ v4Str) st
      | Some v4 =>
          match inet_pton AF_INET6 prefix64Str with
          | None => raise ("Invalid prefix " +:+ prefix64Str) st
          | Some nat64Prefix =>
              let st1 := log (EvGenerateIpv6 iface v4 nat64Prefix) st in
              if fst (gen iface v4 nat64Prefix) =? 0
              then (Some (inet_ntop6_text (snd (gen iface v4 nat64Prefix))), st1)
              else raise ("Unable to find global source address on " +:+ iface +:+
                          " for " +:+ prefix64Str) st1
          end
      end
  end.
Proof.
  unfold android.com_android_server_connectivity_ClatCoordinator_generateIpv6Address,
    ScopedUtfChars.
  unfold_M. destruct ifaceStr as [iface|]; [|reflexivity].
  destruct (inet_pton AF_INET v4Str) as [v4|]; [|reflexivity].
  destruct (inet_pton AF_INET6 prefix64Str) as [nat64Prefix|]; [|reflexivity].
  cbv zeta. destruct (gen iface v4 nat64Prefix) as [status v6]. cbn [fst snd].
  destruct (status =? 0); cbn [negb]; [|reflexivity].
  by rewrite inet_ntop6_fits.
Qed.

Lemma open_detect_run platSubnet plat_suffix mark st :
  detectMtu platSubnet plat_suffix mark st =
  match inet_pton AF_INET6 platSubnet with
  | None =>
      let msg := "Invalid plat prefix address " +:+ platSubnet in
      (-1, log (EvThrow IOException msg)
             (set_pending (Some (mk_jthrowable IOException msg)) st))
  | Some plat_subnet =>
      let st1 := log (EvDetectMtu plat_subnet plat_suffix mark) st in
      let r := det plat_subnet plat_suffix mark in
      if r <? 0 then
        let msg := "detect mtu failed: " +:+ strerror env (- r) in
        (-1, log (EvThrow IOException msg)
               (set_pending (Some (mk_jthrowable IOException msg)) st1))
      else (r, st1)
  end.
Proof.
  unfold android.com_android_server_connectivity_ClatCoordinator_detectMtu.
  unfold_M. destruct (inet_pton AF_INET6 platSubnet) as [plat|]; [|reflexivity].
  cbv zeta. by destruct (det plat plat_suffix mark <? 0).
Qed.
End OpenBridgeFacts.

(** ** X1: what selectIpv4Address hands back *)

(** X1. For a well-formed base address and whatever 32-bit value the
    selector picks, selectIpv4Address touches neither descriptors nor errno
    and either raises "No free IPv4 address in base/prefixlen" with a null
    result, exactly when the pick is INADDR_NONE, or raises nothing and
    returns a text that inet_pton reads back as the pick. *)
Theorem selectIpv4Address_returns_text_of_pick
    (sel : Z → Z → Z) (v4addr : string) (prefixlen ip : Z) (st : state) :
  inet_pton AF_INET v4addr = Some ip →
  0 <= sel ip prefixlen < 2 ^ 32 →
  let '(r, st') :=
    android.com_android_server_connectivity_ClatCoordinator_selectIpv4Address
      sel v4addr prefixlen st in
  fdtable st' = fdtable st ∧ errno st' = errno st ∧
  ((sel ip prefixlen = INADDR_NONE ∧ r = None ∧
    pending st' = Some (mk_jthrowable IOException
      ("No free IPv4 address in " +:+ v4addr +:+ "/" +:+ pretty prefixlen)))
   ∨
   (sel ip prefixlen ≠ INADDR_NONE ∧ pending st' = pending st ∧
    ∃ text, r = Some text ∧ inet_pton AF_INET text = Some (sel ip prefixlen))).
Proof.
  intros Hip Hrange. rewrite open_select_run, Hip. cbv zeta.
  destruct (Z.eqb_spec (sel ip prefixlen) INADDR_NONE) as [Heq|Hne].
  - unfold_state. split; [done|]. split; [done|]. by left.
  - unfold_state. split; [done|]. split; [done|]. right.
    split; [done|]. split; [done|].
    eexists. split; [reflexivity|]. by apply inet_pton4_ntop4.
Qed.

Lemma selectIpv4Address_returns_text_of_pick_witness :
  let '(r, st') :=
    android.com_android_server_connectivity_ClatCoordinator_selectIpv4Address
      fixed_select "192.0.0.1" 29 initial_state in
  fdtable st' = fdtable initial_state ∧ errno st' = errno initial_state ∧
  ((fixed_select 3221225473 29 = INADDR_NONE ∧ r = None ∧
    pending st' = Some (mk_jthrowable IOException
      ("No free IPv4 address in " +:+ "192.0.0.1" +:+ "/" +:+ pretty 29)))
   ∨
   (fixed_select 3221225473 29 ≠ INADDR_NONE ∧ pending st' = pending initial_state ∧
    ∃ text, r = Some text ∧ inet_pton AF_INET text = Some (fixed_select 3221225473 29))).
Proof.
  apply (selectIpv4Address_returns_text_of_pick fixed_select "192.0.0.1" 29
           3221225473 initial_state).
  - vm_compute. reflexivity.
  - unfold fixed_select. change (2 ^ 32) with 4294967296. lia.
Defined.

(** ** X2, X3: generateIpv6Address *)

(** X2. With a non-null interface name, generateIpv6Address checks the
    IPv4 string first and the prefix string second: a malformed IPv4 string
    raises "Invalid clat v4 address ..." whatever the prefix string is, a
    malformed prefix after a well-formed IPv4 string raises "Invalid prefix
    ...", and in both cases nothing else happens; the generator is called,
    with the interface name and the two parsed addresses, only when both
    strings are well formed. *)
Theorem generateIpv6Address_validation_order
    (gen : string → Z → Z → Z * Z) (iface v4Str prefix64Str : string) (st : state) :
  let '(r, st') :=
    android.com_android_server_connectivity_ClatCoordinator_generateIpv6Address
      gen (Some iface) v4Str prefix64Str st in
  match inet_pton AF_INET v4Str, inet_pton AF_INET6 prefix64Str with
  | None, _ =>
      r = None ∧ fdtable st' = fdtable st ∧ errno st' = errno st ∧
      trace st' = trace st ++ [EvThrow IOException ("Invalid clat v4 address " +:+ v4Str)]
  | Some _, None =>
      r = None ∧ fdtable st' = fdtable st ∧ errno st' = errno st ∧
      trace st' = trace st ++ [EvThrow IOException ("Invalid prefix " +:+ prefix64Str)]
  | Some v4, Some nat64Prefix =>
      ∃ rest, trace st' = trace st ++ EvGenerateIpv6 iface v4 nat64Prefix :: rest
  end.
Proof.
  rewrite open_generate_run. cbv zeta.
  destruct (inet_pton AF_INET v4Str) as [v4|]; [|by unfold_state].
  destruct (inet_pton AF_INET6 prefix64Str) as [nat64Prefix|]; [|by unfold_state].
  destruct (fst (gen iface v4 nat64Prefix) =? 0); unfold_state.
  - by exists [].
  - eexists. by rewrite <- (assoc_L (++)).
Qed.

(** X3. Called with no exception pending, generateIpv6Address returns null
    exactly when it leaves an exception pending, that exception is always a
    java/io/IOException, and descriptors and errno are left alone. A string
    it returns is the text of the address the generator stored, for a
    generator call that returned status 0. *)
Theorem generateIpv6Address_null_iff_exception
    (gen : string → Z → Z → Z * Z) (ifaceStr : jstring) (v4Str prefix64Str : string)
    (st : state) :
  pending st = None →
  let '(r, st') :=
    android.com_android_server_connectivity_ClatCoordinator_generateIpv6Address
      gen ifaceStr v4Str prefix64Str st in
  (r = None ↔ pending st' ≠ None) ∧
  (∀ ex, pending st' = Some ex → ex_class ex = IOException) ∧
  fdtable st' = fdtable st ∧ errno st' = errno st ∧
  (∀ text, r = Some text →
     ∃ iface v4 nat64Prefix,
       ifaceStr = Some iface ∧ inet_pton AF_INET v4Str = Some v4 ∧
       inet_pton AF_INET6 prefix64Str = Some nat64Prefix ∧
       fst (gen iface v4 nat64Prefix) = 0 ∧
       text = inet_ntop6_text (snd (gen iface v4 nat64Prefix))).
Proof.
  intros Hpend. rewrite open_generate_run. cbv zeta.
  assert (∀ msg st0,
    fdtable st0 = fdtable st → errno st0 = errno st →
    let '(r, st') :=
      (@None string, log (EvThrow IOException msg)
               (set_pending (Some (mk_jthrowable IOException msg)) st0)) in
    (r = None ↔ pending st' ≠ None) ∧
    (∀ ex, pending st' = Some ex → ex_class ex = IOException) ∧
    fdtable st' = fdtable st ∧ errno st' = errno st ∧
    (∀ text, r = Some text →
       ∃ iface v4 nat64Prefix,
         ifaceStr = Some iface ∧ inet_pton AF_INET v4Str = Some v4 ∧
         inet_pton AF_INET6 prefix64Str = Some nat64Prefix ∧
         fst (gen iface v4 nat64Prefix) = 0 ∧
         text = inet_ntop6_text (snd (gen iface v4 nat64Prefix)))) as Hraise.
  { intros msg st0 Hfd Herr. unfold_state.
    split; [split; [discriminate|done]|].
    split; [by intros ex [= <-]|]. by repeat split. }
  destruct ifaceStr as [iface|]; [|by apply Hraise].
  destruct (inet_pton AF_INET v4Str) as [v4|] eqn:H4; [|by apply Hraise].
  destruct (inet_pton AF_INET6 prefix64Str) as [nat64Prefix|] eqn:H6; [|by apply Hraise].
  destruct (Z.eqb_spec (fst (gen iface v4 nat64Prefix)) 0) as [Hok|Hfail];
    [|by apply Hraise].
  unfold_state. rewrite Hpend.
  split; [split; [discriminate|done]|].
  split; [discriminate|]. split; [done|]. split; [done|].
  intros text [= <-]. by exists iface, v4, nat64Prefix.
Qed.

Lemma generateIpv6Address_null_iff_exception_witness :
  let '(r, st') :=
    android.com_android_server_connectivity_ClatCoordinator_generateIpv6Address
      fixed_generate (Some "v4-wlan0") "192.0.0.4" "64:ff9b::" initial_state in
  (r = None ↔ pending st' ≠ None) ∧
  (∀ ex, pending st' = Some ex → ex_class ex = IOException) ∧
  fdtable st' = fdtable initial_state ∧ errno st' = errno initial_state ∧
  (∀ text, r = Some text →
     ∃ iface v4 nat64Prefix,
       Some "v4-wlan0" = Some iface ∧ inet_pton AF_INET "192.0.0.4" = Some v4 ∧
       inet_pton AF_INET6 "64:ff9b::" = Some nat64Prefix ∧
       fst (fixed_generate iface v4 nat64Prefix) = 0 ∧
       text = inet_ntop6_text (snd (fixed_generate iface v4 nat64Prefix))).
Proof.
  apply (generateIpv6Address_null_iff_exception fixed_generate (Some "v4-wlan0")
           "192.0.0.4" "64:ff9b::" initial_state).
  reflexivity.
Defined.

(** ** X4: detectMtu *)

(** X4. Called with no exception pending, detectMtu returns -1 exactly when
    it leaves an exception pending, and that exception is a
    java/io/IOException. When it raises nothing, the address string was well
    formed and the result is the prober's own non-negative answer, passed on
    as it is: the bridge applies no bound of its own. *)
Theorem detectMtu_minus_one_iff_exception
    (env : environment) (det : Z → Z → Z → Z) (platSubnet : string)
    (plat_suffix mark : Z) (st : state) :
  pending st = None →
  let '(r, st') :=
    android.com_android_server_connectivity_ClatCoordinator_detectMtu
      env det platSubnet plat_suffix mark st in
  (r = -1 ↔ pending st' ≠ None) ∧
  (∀ ex, pending st' = Some ex → ex_class ex = IOException) ∧
  (pending st' = None →
     ∃ plat_subnet, inet_pton AF_INET6 platSubnet = Some plat_subnet ∧
                    r = det plat_subnet plat_suffix mark ∧ 0 <= r).
Proof.
  intros Hpend. rewrite open_detect_run.
  destruct (inet_pton AF_INET6 platSubnet) as [plat|]; cbv zeta.
  - destruct (Z.ltb_spec (det plat plat_suffix mark) 0) as [Hneg|Hpos].
    + unfold_state. split; [split; [discriminate|done]|].
      split; [by intros ex [= <-]|discriminate].
    + unfold_state. rewrite Hpend. split; [split; [lia|done]|].
      split; [discriminate|]. intros _. by exists plat.
  - unfold_state. split; [split; [discriminate|done]|].
    split; [by intros ex [= <-]|discriminate].
Qed.

Lemma detectMtu_minus_one_iff_exception_witness :
  let '(r, st') :=
    android.com_android_server_connectivity_ClatCoordinator_detectMtu
      quiet_env fixed_detect "64:ff9b::" 0 0 initial_state in
  (r = -1 ↔ pending st' ≠ None) ∧
  (∀ ex, pending st' = Some ex → ex_class ex = IOException) ∧
  (pending st' = None →
     ∃ plat_subnet, inet_pton AF_INET6 "64:ff9b::" = Some plat_subnet ∧
                    r = fixed_detect plat_subnet 0 0 ∧ 0 <= r).
Proof.
  apply (detectMtu_minus_one_iff_exception quiet_env fixed_detect "64:ff9b::" 0 0
           initial_state).
  reflexivity.
Defined.

Example detect_mtu_passes_small_value_on :
  fst (android.com_android_server_connectivity_ClatCoordinator_detectMtu
         quiet_env fixed_detect "64:ff9b::" 0 0 initial_state) = 1000.
Proof. vm_compute. reflexivity. Qed.

(** ** X5-X8: createTunInterface *)

(** X5. When TUNSETIFF fails, the error named in the exception is the value
    of errno after the close that precedes the throw: the error of
    TUNSETIFF when close succeeds, the error of close when close fails
    too. *)
Theorem createTunInterface_reports_errno_after_close
    (env : environment) (name : string) (st : state) (e : positive) :
  open_fails env = None →
  tunsetiff_fails env = Some e →
  let reported :=
    match close_fails env with Some c => Z.pos c | None => Z.pos e end in
  let '(r, st') :=
    com_android_server_connectivity_ClatCoordinator_createTunInterface env name st in
  r = -1 ∧ errno st' = reported ∧
  pending st' =
    Some (mk_jthrowable IOException
            ("ioctl(TUNSETIFF) failed (" +:+ strerror env reported +:+ ")")).
Proof.
  intros Ho Hi reported. rewrite (createTun_binding_fails env name st e Ho Hi).
  by cbn [errno pending].
Qed.

Lemma createTunInterface_reports_errno_after_close_witness :
  let '(r, st') :=
    com_android_server_connectivity_ClatCoordinator_createTunInterface
      interrupted_close_env "v4-wlan0" initial_state in
  r = -1 ∧ errno st' = 4 ∧
  pending st' =
    Some (mk_jthrowable IOException
            ("ioctl(TUNSETIFF) failed (" +:+ strerror interrupted_close_env 4 +:+ ")")).
Proof.
  apply (createTunInterface_reports_errno_after_close interrupted_close_env
           "v4-wlan0" initial_state 16%positive); reflexivity.
Defined.

(** X6. A successful createTunInterface returns a non-negative descriptor
    that was not open before the call, leaves every other descriptor as it
    was, and changes neither errno nor the pending exception. *)
Theorem createTunInterface_success_frame
    (env : environment) (name : string) (st st' : state) (r : Z) :
  com_android_server_connectivity_ClatCoordinator_createTunInterface env name st
    = (r, st') →
  r ≠ -1 →
  0 <= r ∧ fdtable st !! r = None ∧
  (∀ fd, fd ≠ r → fdtable st' !! fd = fdtable st !! fd) ∧
  errno st' = errno st ∧ pending st' = pending st.
Proof.
  intros Hrun Hr.
  destruct (open_fails env) as [e|] eqn:Ho.
  { rewrite (createTun_open_fails env name st e Ho) in Hrun. by injection Hrun as <- <-. }
  destruct (tunsetiff_fails env) as [e|] eqn:Hi.
  { rewrite (createTun_binding_fails env name st e Ho Hi) in Hrun.
    by injection Hrun as <- <-. }
  rewrite (createTun_succeeds env name st Ho Hi) in Hrun.
  injection Hrun as <- <-. cbn [fdtable errno pending].
  split; [apply lowest_free_fd_nonneg|]. split; [apply lowest_free_fd_fresh|].
  split; [|done]. intros fd Hfd. by rewrite lookup_insert_ne.
Qed.

Lemma createTunInterface_success_frame_witness :
  0 <= 0 ∧ fdtable initial_state !! 0 = None ∧
  (∀ fd, fd ≠ 0 →
     fdtable (snd (com_android_server_connectivity_ClatCoordinator_createTunInterface
                     quiet_env "v4-wlan0" initial_state)) !! fd
     = fdtable initial_state !! fd) ∧
  errno (snd (com_android_server_connectivity_ClatCoordinator_createTunInterface
                quiet_env "v4-wlan0" initial_state)) = errno initial_state ∧
  pending (snd (com_android_server_connectivity_ClatCoordinator_createTunInterface
                  quiet_env "v4-wlan0" initial_state)) = pending initial_state.
Proof.
  apply (createTunInterface_success_frame quiet_env "v4-wlan0" initial_state).
  - vm_compute. reflexivity.
  - lia.
Defined.

(** X7. When two calls in a row both succeed, they return two different
    descriptors; the second call leaves the first descriptor as the first
    call left it, and both are open afterwards, each with the request that
    was made for it. *)
Theorem createTunInterface_twice
    (env1 env2 : environment) (name1 name2 : string) (st st1 st2 : state) (r1 r2 : Z) :
  com_android_server_connectivity_ClatCoordinator_createTunInterface env1 name1 st
    = (r1, st1) →
  r1 ≠ -1 →
  com_android_server_connectivity_ClatCoordinator_createTunInterface env2 name2 st1
    = (r2, st2) →
  r2 ≠ -1 →
  r1 ≠ r2 ∧
  fdtable st2 !! r1 = fdtable st1 !! r1 ∧
  requested_name st2 r1 = Some (strlcpy name1 IFNAMSIZ) ∧
  requested_name st2 r2 = Some (strlcpy name2 IFNAMSIZ).
Proof.
  intros Hrun1 Hr1 Hrun2 Hr2.
  assert (∀ env name s r s',
    com_android_server_connectivity_ClatCoordinator_createTunInterface env name s
      = (r, s') → r ≠ -1 →
    fdtable s !! r = None ∧
    fdtable s' = <[r := {| f_path := "/dev/net/tun"; f_flags := tun_open_flags;
                          f_tun_request := Some (tun_request name) |}]> (fdtable s))
    as Hsucc.
  { intros env name s r s' Hrun Hr.
    destruct (open_fails env) as [e|] eqn:Ho.
    { rewrite (createTun_open_fails env name s e Ho) in Hrun.
      by injection Hrun as <- <-. }
    destruct (tunsetiff_fails env) as [e|] eqn:Hi.
    { rewrite (createTun_binding_fails env name s e Ho Hi) in Hrun.
      by injection Hrun as <- <-. }
    rewrite (createTun_succeeds env name s Ho Hi) in Hrun.
    injection Hrun as <- <-. split; [apply lowest_free_fd_fresh|done]. }
  destruct (Hsucc _ _ _ _ _ Hrun1 Hr1) as [_ Ht1].
  destruct (Hsucc _ _ _ _ _ Hrun2 Hr2) as [Hfresh2 Ht2].
  assert (r1 ≠ r2) as Hne.
  { intros ->. rewrite Ht1, lookup_insert_eq in Hfresh2. done. }
  split; [done|]. unfold requested_name. rewrite Ht2.
  rewrite lookup_insert_ne by done. split; [done|].
  rewrite lookup_insert_eq, Ht1, lookup_insert_eq. done.
Qed.

Lemma createTunInterface_twice_witness :
  0 ≠ 1 ∧
  fdtable (snd (com_android_server_connectivity_ClatCoordinator_createTunInterface
                  quiet_env "v4-rmnet_data0"
                  (snd (com_android_server_connectivity_ClatCoordinator_createTunInterface
                          quiet_env "v4-wlan0" initial_state)))) !! 0
  = fdtable (snd (com_android_server_connectivity_ClatCoordinator_createTunInterface
                    quiet_env "v4-wlan0" initial_state)) !! 0 ∧
  requested_name
    (snd (com_android_server_connectivity_ClatCoordinator_createTunInterface
            quiet_env "v4-rmnet_data0"
            (snd (com_android_server_connectivity_ClatCoordinator_createTunInterface
                    quiet_env "v4-wlan0" initial_state)))) 0
  = Some (strlcpy "v4-wlan0" IFNAMSIZ) ∧
  requested_name
    (snd (com_android_server_connectivity_ClatCoordinator_createTunInterface
            quiet_env "v4-rmnet_data0"
            (snd (com_android_server_connectivity_ClatCoordinator_createTunInterface
                    quiet_env "v4-wlan0" initial_state)))) 1
  = Some (strlcpy "v4-rmnet_data0" IFNAMSIZ).
Proof.
  apply (createTunInterface_twice quiet_env quiet_env "v4-wlan0" "v4-rmnet_data0"
           initial_state).
  - vm_compute. reflexivity.
  - lia.
  - vm_compute. reflexivity.
  - lia.
Defined.

(** What a call returns and the descriptor table it leaves depend on the
    state through the descriptor table only. *)
Lemma createTun_depends_on_fdtable env name st st0 :
  fdtable st0 = fdtable st →
  fst (com_android_server_connectivity_ClatCoordinator_createTunInterface env name st0)
  = fst (com_android_server_connectivity_ClatCoordinator_createTunInterface env name st)
  ∧
  fdtable (snd (com_android_server_connectivity_ClatCoordinator_createTunInterface
                  env name st0))
  = fdtable (snd (com_android_server_connectivity_ClatCoordinator_createTunInterface
                    env name st)).
Proof.
  intros Hfd.
  destruct (open_fails env) as [e|] eqn:Ho.
  { rewrite !(createTun_open_fails env name _ e Ho). by unfold_state. }
  destruct (tunsetiff_fails env) as [e|] eqn:Hi.
  { rewrite !(createTun_binding_fails env name _ e Ho Hi). by cbn [fst snd fdtable]. }
  rewrite !(createTun_succeeds env name _ Ho Hi). cbn [fst snd fdtable].
  by rewrite Hfd.
Qed.

(** X8. A failed call uses up no descriptor: a call made after it returns
    the descriptor, and leaves the descriptor table, that it would have if
    the failed call had never been made. *)
Theorem createTunInterface_retry_after_failure
    (env_failing env_retry : environment) (name1 name2 : string) (st : state) :
  open_fails env_failing ≠ None ∨ tunsetiff_fails env_failing ≠ None →
  let '(r1, st1) :=
    com_android_server_connectivity_ClatCoordinator_createTunInterface
      env_failing name1 st in
  let '(r2, st2) :=
    com_android_server_connectivity_ClatCoordinator_createTunInterface
      env_retry name2 st1 in
  let '(r, st') :=
    com_android_server_connectivity_ClatCoordinator_createTunInterface
      env_retry name2 st in
  r1 = -1 ∧ r2 = r ∧ fdtable st2 = fdtable st'.
Proof.
  intros Hfail.
  destruct (com_android_server_connectivity_ClatCoordinator_createTunInterface
              env_failing name1 st) as [r1 st1] eqn:H1.
  assert (r1 = -1 ∧ fdtable st1 = fdtable st) as [-> Hfd].
  { destruct (open_fails env_failing) as [e|] eqn:Ho.
    { rewrite (createTun_open_fails env_failing name1 st e Ho) in H1.
      by injection H1 as <- <-. }
    destruct (tunsetiff_fails env_failing) as [e|] eqn:Hi; [|by destruct Hfail].
    rewrite (createTun_binding_fails env_failing name1 st e Ho Hi) in H1.
    by injection H1 as <- <-. }
  pose proof (createTun_depends_on_fdtable env_retry name2 st st1 Hfd) as [Hr Ht].
  destruct (com_android_server_connectivity_ClatCoordinator_createTunInterface
              env_retry name2 st1) as [r2 st2].
  destruct (com_android_server_connectivity_ClatCoordinator_createTunInterface
              env_retry name2 st) as [r st'].
  by cbn [fst snd] in *.
Qed.

Lemma createTunInterface_retry_after_failure_witness :
  let '(r1, st1) :=
    com_android_server_connectivity_ClatCoordinator_createTunInterface
      busy_tun_env "v4-wlan0" initial_state in
  let '(r2, st2) :=
    com_android_server_connectivity_ClatCoordinator_createTunInterface
      quiet_env "v4-wlan0" st1 in
  let '(r, st') :=
    com_android_server_connectivity_ClatCoordinator_createTunInterface
      quiet_env "v4-wlan0" initial_state in
  r1 = -1 ∧ r2 = r ∧ fdtable st2 = fdtable st'.
Proof.
  apply (createTunInterface_retry_after_failure busy_tun_env quiet_env
           "v4-wlan0" "v4-wlan0" initial_state).
  right. discriminate.
Defined.

(** ** X9: the registration table *)

(** X9. Every row of gMethods carries a well-formed method descriptor that
    decodes to the parameter and result types of the C function the row
    points to; the four method names are pairwise different, the four rows
    point to four different functions, and registration passes the whole
    table with its length 4 under the class
    com/android/server/connectivity/ClatCoordinator. *)
Theorem gMethods_signatures_match_prototypes :
  Forall (fun m => android.method_descriptor (android.signature m)
                   = Some (android.prototype (android.fnPtr m))) android.gMethods ∧
  NoDup (android.name <$> android.gMethods) ∧
  NoDup (android.fnPtr <$> android.gMethods) ∧
  ∀ jniRegisterNativeMethods,
    android.register_android_server_connectivity_ClatCoordinator jniRegisterNativeMethods
    = jniRegisterNativeMethods "com/android/server/connectivity/ClatCoordinator"
        android.gMethods 4%nat.
Proof.
  split; [repeat constructor|]. split; [|split; [|done]].
  - cbn [fmap list_fmap android.gMethods android.name].
    repeat (apply NoDup_cons_2;
            [rewrite ?not_elem_of_cons; repeat split;
             try discriminate; apply not_elem_of_nil|]).
    apply NoDup_nil_2.
  - cbn [fmap list_fmap android.gMethods android.fnPtr].
    repeat (apply NoDup_cons_2;
            [rewrite ?not_elem_of_cons; repeat split;
             try discriminate; apply not_elem_of_nil|]).
    apply NoDup_nil_2.
Qed.

(** ** X10: from the selector to the generator *)

(** X10. The text selectIpv4Address returns is always accepted as the IPv4
    argument of generateIpv6Address: with a well-formed base address, a
    32-bit pick other than INADDR_NONE, a non-null interface name and a
    well-formed prefix, the generator is called with exactly the address the
    selector picked. *)
Theorem selected_address_reaches_generator
    (sel : Z → Z → Z) (gen : string → Z → Z → Z * Z)
    (v4addr iface prefix64Str : string) (prefixlen ip nat64Prefix : Z) (st : state) :
  inet_pton AF_INET v4addr = Some ip →
  0 <= sel ip prefixlen < 2 ^ 32 →
  sel ip prefixlen ≠ INADDR_NONE →
  inet_pton AF_INET6 prefix64Str = Some nat64Prefix →
  let '(r1, st1) :=
    android.com_android_server_connectivity_ClatCoordinator_selectIpv4Address
      sel v4addr prefixlen st in
  ∃ text, r1 = Some text ∧
    let '(r2, st2) :=
      android.com_android_server_connectivity_ClatCoordinator_generateIpv6Address
        gen (Some iface) text prefix64Str st1 in
    ∃ rest,
      trace st2 = trace st ++
        EvSelectIpv4 ip prefixlen ::
        EvGenerateIpv6 iface (sel ip prefixlen) nat64Prefix :: rest.
Proof.
  intros Hip Hrange Hne Hprefix. rewrite open_select_run, Hip. cbv zeta.
  destruct (Z.eqb_spec (sel ip prefixlen) INADDR_NONE); [done|].
  eexists. split; [reflexivity|].
  rewrite open_generate_run, (inet_pton4_ntop4 _ Hrange), Hprefix. cbv zeta.
  destruct (fst (gen iface (sel ip prefixlen) nat64Prefix) =? 0); unfold_state.
  - exists []. by rewrite <- (assoc_L (++)).
  - eexists. by rewrite <- !(assoc_L (++)).
Qed.

Lemma selected_address_reaches_generator_witness :
  let '(r1, st1) :=
    android.com_android_server_connectivity_ClatCoordinator_selectIpv4Address
      fixed_select "192.0.0.1" 29 initial_state in
  ∃ text, r1 = Some text ∧
    let '(r2, st2) :=
      android.com_android_server_connectivity_ClatCoordinator_generateIpv6Address
        failing_generate (Some "v4-wlan0") text "64:ff9b::" st1 in
    ∃ rest,
      trace st2 = trace initial_state ++
        EvSelectIpv4 3221225473 29 ::
        EvGenerateIpv6 "v4-wlan0" (fixed_select 3221225473 29)
          524413980667603649783483181312245760 :: rest.
Proof.
  apply (selected_address_reaches_generator fixed_select failing_generate
           "192.0.0.1" "v4-wlan0" "64:ff9b::" 29 3221225473
           524413980667603649783483181312245760 initial_state).
  - vm_compute. reflexivity.
  - unfold fixed_select. change (2 ^ 32) with 4294967296. lia.
  - discriminate.
  - vm_compute. reflexivity.
Defined.
